(** * docker-image-builder: a shallow embedding of [api.py] and [dockertools.py]

    The builder API keeps its session in module-level variables and talks to
    the Docker daemon through the [docker] client library.  The embedding
    below keeps that shape: the module globals are one record, every API
    function is a computation in a state-and-exception monad over that
    record, and the Docker daemon, the host file system and the path library
    are interfaces (type classes) the functions are parameterised by. *)

From Stdlib Require Import ZArith Lia Ascii DecimalString.
From Stdlib.Strings Require Import Byte.
From stdpp Require Import gmap strings list.

Open Scope Z_scope.
Open Scope nat_scope.

(** ** Python values *)

(** [bytes] objects. *)
Abbreviation bytes := (list byte).

(** The [b'...'] literal. *)
Definition b (s : string) : bytes := String.list_byte_of_string s.

Definition LF : byte := x0a.
Definition CR : byte := x0d.

(** The double quote character, and the one-character strings the code
    writes as literals. *)
Definition dquote : ascii := ascii_of_nat 34.
Definition chr (c : ascii) : string := String c EmptyString.

Module PyBytes.

(** [data.find(b'\n', offset)] for a one-byte needle: the least index
    [i >= offset] with [data[i] = c]; Python's [-1] is [None]. *)
Fixpoint find_in (c : byte) (data : bytes) (i : nat) : option nat :=
  match data with
  | [] => None
  | x :: rest => if Byte.eqb x c then Some i else find_in c rest (S i)
  end.

Definition find (data : bytes) (c : byte) (offset : nat) : option nat :=
  find_in c (drop offset data) offset.

(** [data[lo:hi]] for non-negative bounds. *)
Definition slice (data : bytes) (lo hi : nat) : bytes :=
  take (hi - lo) (drop lo data).

(** [data[lo:]]. *)
Definition slice_from (data : bytes) (lo : nat) : bytes := drop lo data.

Fixpoint startswith (data pre : bytes) {struct pre} : bool :=
  match pre, data with
  | [], _ => true
  | _ :: _, [] => false
  | p :: pre', x :: data' => Byte.eqb x p && startswith data' pre'
  end.

(** One left-to-right pass of [data.replace(old, new)] for a non-empty
    [old]: at an occurrence of [old] emit [new] and skip the occurrence
    ([skip] counts the bytes of it still to pass over), elsewhere copy
    the byte. *)
Fixpoint replace_go (old new : bytes) (skip : nat) (data : bytes) : bytes :=
  match data with
  | [] => []
  | x :: rest =>
      match skip with
      | S k => replace_go old new k rest
      | O =>
          if startswith data old
          then new ++ replace_go old new (length old - 1) rest
          else x :: replace_go old new 0 rest
      end
  end.

(** [data.replace(old, new)]; with an empty [old] Python puts [new]
    before every byte and at the end. *)
Definition replace (data old new : bytes) : bytes :=
  match old with
  | [] => new ++ flat_map (fun x => x :: new) data
  | _ :: _ => replace_go old new 0 data
  end.

End PyBytes.

(** [str] objects are strings of code points below 256. *)
Module PyStr.

(** Truth value of a [str]: the empty string is false. *)
Definition truthy (s : string) : bool :=
  match s with
  | EmptyString => false
  | String _ _ => true
  end.

(** Truth value of an optional [str] argument ([None] and [''] are false). *)
Definition truthy_opt (o : option string) : bool :=
  match o with
  | None => false
  | Some s => truthy s
  end.

(** [s.startswith(pre)]. *)
Definition startswith (s pre : string) : bool := String.prefix pre s.

(** [sub in s]. *)
Fixpoint contains (sub s : string) : bool :=
  String.prefix sub s ||
  match s with
  | EmptyString => false
  | String _ rest => contains sub rest
  end.

(** [s.partition(sep)] for a one-character [sep]: the part before the first
    [sep], the separator found, the part after it; when [sep] does not occur,
    [s] and two empty strings. *)
Fixpoint partition (s : string) (sep : ascii) : string * string * string :=
  match s with
  | EmptyString => (EmptyString, EmptyString, EmptyString)
  | String c rest =>
      if Ascii.eqb c sep then (EmptyString, chr sep, rest)
      else
        let '(before, found, after) := partition rest sep in
        (String c before, found, after)
  end.

(** [sep.join(items)]. *)
Definition join (sep : string) (items : list string) : string :=
  String.concat sep items.

(** [s.replace(old, new)] for a one-character [old]. *)
Fixpoint replace_char (s : string) (old : ascii) (new : string) : string :=
  match s with
  | EmptyString => EmptyString
  | String c rest =>
      (if Ascii.eqb c old then new else chr c) +:+ replace_char rest old new
  end.

(** [repr(n)] and [str(n)] of an [int]. *)
Definition repr_int (n : Z) : string := NilZero.string_of_int (Z.to_int n).

End PyStr.

(** [json.dumps] with its defaults ([ensure_ascii=True], separators
    [', '] and [': ']) on the two kinds of value [commit] passes to it. *)
Module json.

Definition hex_digit (n : nat) : ascii :=
  match String.get n "0123456789abcdef" with
  | Some c => c
  | None => "0"%char
  end.

(** One character of a string literal: the short escapes, [\u00xx] for
    the other characters outside [' '..'~'], and the character itself
    otherwise. *)
Definition escape (c : ascii) : string :=
  let n := nat_of_ascii c in
  if n =? 34 then "\" +:+ chr dquote
  else if n =? 92 then "\\"
  else if n =? 10 then "\n"
  else if n =? 13 then "\r"
  else if n =? 9 then "\t"
  else if n =? 12 then "\f"
  else if n =? 8 then "\b"
  else if (32 <=? n) && (n <=? 126) then chr c
  else "\u00" +:+ chr (hex_digit (n / 16)) +:+ chr (hex_digit (n mod 16)).

Fixpoint escape_all (s : string) : string :=
  match s with
  | EmptyString => EmptyString
  | String c rest => escape c +:+ escape_all rest
  end.

(** [json.dumps(s)] for a [str]. *)
Definition dumps_str (s : string) : string :=
  chr dquote +:+ escape_all s +:+ chr dquote.

(** [json.dumps(l)] for a list of [str]. *)
Definition dumps_list (l : list string) : string :=
  "[" +:+ PyStr.join ", " (map dumps_str l) +:+ "]".

End json.

Module shlex.

(** The characters [quote] leaves alone: [[\w@%+=:,./-]] with [re.ASCII]. *)
Definition safe (c : ascii) : bool :=
  let n := nat_of_ascii c in
  ((48 <=? n) && (n <=? 57)) || ((65 <=? n) && (n <=? 90))
  || ((97 <=? n) && (n <=? 122))
  || PyStr.contains (chr c) "_@%+=:,./-".

Fixpoint all_safe (s : string) : bool :=
  match s with
  | EmptyString => true
  | String c rest => safe c && all_safe rest
  end.

(** [shlex.quote(s)]. *)
Definition quote (s : string) : string :=
  if negb (PyStr.truthy s) then "''"
  else if all_safe s then s
  else "'" +:+ PyStr.replace_char s "'" ("'" +:+ chr dquote +:+ "'" +:+ chr dquote +:+ "'") +:+ "'".

End shlex.

(** ** dockertools.py *)

Module dockertools.

(** The keyword arguments of [container_exec] other than [stream] and
    [workdir], with the defaults of its signature. *)
Record ExecKwargs := {
  kw_stdout : bool;
  kw_stderr : bool;
  kw_stdin : bool;
  kw_tty : bool;
  kw_privileged : bool;
  kw_user : string;
  kw_detach : bool;
  kw_socket : bool;
  kw_environment : option (list string);
}.

Definition default_kwargs : ExecKwargs :=
  {| kw_stdout := true; kw_stderr := true; kw_stdin := false;
     kw_tty := false; kw_privileged := false; kw_user := EmptyString;
     kw_detach := false; kw_socket := false; kw_environment := None |}.

(** The three calls of [container.client.api] the module uses.
    [exec_create container_id cmd kwargs workdir] is the ['Id'] of the new
    exec instance, [exec_start exec_id kwargs stream] the chunks its output
    stream yields, [exec_inspect exec_id] the ['ExitCode'] entry of the
    inspection ([None] while the command has not finished).  The calls are
    followed on the path where each of them returns; a call that raises
    ends [container_exec] or [communicate] there with the library's
    exception, and the properties below say nothing of that path. *)
Class APIClient := {
  exec_create : string -> list string -> ExecKwargs -> option string -> string;
  exec_start : string -> ExecKwargs -> bool -> list bytes;
  exec_inspect : string -> option Z;
}.

Record ContainerExec := {
  id : string;
  output : list bytes;
}.

(** What [communicate] hands back once the stream is drained. *)
Inductive drained :=
| Returned (code : Z)
| Unfinished.   (* RuntimeError('Hm could that really happen?') *)

Section WithClient.
Context `{APIClient}.

Definition container_exec (container_id : string) (cmd : list string)
           (kwargs : ExecKwargs) (stream : bool) (workdir : option string)
  : ContainerExec :=
  let exec_id := exec_create container_id cmd kwargs workdir in
  let output := exec_start exec_id kwargs stream in
  {| id := exec_id; output := output |}.

(** [poll]: [self.inspect()['ExitCode']]. *)
Definition poll (self : ContainerExec) : option Z := exec_inspect (id self).

(** The inner [while offset < len(data)] loop of [communicate], as the
    list of [sys.stdout.buffer.write] arguments in order.  Every turn
    advances [offset], so [len(data)] turns are always enough; [fuel]
    bounds the turns and [None] means it ran out. *)
Fixpoint write_chunk (fuel : nat) (line_prefix data : bytes) (offset : nat)
  : option (list bytes) :=
  if offset <? length data then
    match fuel with
    | O => None
    | S fuel' =>
        let '(slice, offset') :=
          match PyBytes.find data LF offset with
          | Some nl => (PyBytes.slice data offset (nl + 1), nl + 1)
          | None =>
              let slice := PyBytes.slice_from data offset in
              (slice, offset + length slice)
          end in
        rest ← write_chunk fuel' line_prefix data offset';
        Some (line_prefix :: slice :: rest)
    end
  else Some [].

(** The [for data in self.output] loop: empty chunks are skipped. *)
Fixpoint write_output (line_prefix : bytes) (chunks : list bytes)
  : option (list bytes) :=
  match chunks with
  | [] => Some []
  | data :: more =>
      match data with
      | [] => write_output line_prefix more
      | _ :: _ =>
          ws ← write_chunk (length data) line_prefix data 0;
          rest ← write_output line_prefix more;
          Some (ws ++ rest)
      end
  end.

(** [while self.poll() is None: raise ...] then [return self.poll()]. *)
Definition status (self : ContainerExec) : drained :=
  match poll self with
  | None => Unfinished
  | Some _ =>
      match poll self with
      | Some code => Returned code
      | None => Unfinished
      end
  end.

(** [communicate(line_prefix)]: the writes to [sys.stdout.buffer] and
    the outcome. *)
Definition communicate (self : ContainerExec) (line_prefix : bytes)
  : option (list bytes * drained) :=
  ws ← write_output line_prefix (output self);
  Some (ws, status self).

End WithClient.

(** The bytes that reach standard output. *)
Definition written (ws : list bytes) : bytes := concat ws.

End dockertools.

(** ** The drain property as the specification words it *)

Module DrainSpec.

(** The stream with [line_prefix] put before every line: a line starts at
    the first byte of the stream and after every ['\n'] that has a byte
    after it, so an unterminated last line gets its prefix too. *)
Fixpoint prefixed (line_prefix : bytes) (at_line_start : bool)
         (stream : bytes) : bytes :=
  match stream with
  | [] => []
  | x :: rest =>
      (if at_line_start then line_prefix else [])
        ++ x :: prefixed line_prefix (Byte.eqb x LF) rest
  end.

Definition prefix_lines (line_prefix stream : bytes) : bytes :=
  prefixed line_prefix true stream.

(** Whether the stream stands at the start of a line after [data] has gone
    by, given whether it did before. *)
Definition line_start_after (at_line_start : bool) (data : bytes) : bool :=
  fold_left (fun _ x => Byte.eqb x LF) data at_line_start.

(** A chunk of whole lines: empty, or ending in ['\n']. *)
Definition whole_lines (data : bytes) : Prop :=
  line_start_after true data = true.

End DrainSpec.


(** ** api.py: data *)

Module api.

(** A [docker] container object; any such object is true. *)
Record Container := { container_id : string }.

(** The value of a [buildtime_volumes] entry: [{'bind': ..., 'mode': ...}]. *)
Record Bind := { bind : string; mode : string }.

(** A member of the in-memory tar archive. *)
Record TarMember := {
  tar_name : string;
  tar_mode : Z;
  tar_size : nat;
  tar_content : bytes;
}.

(** The keyword arguments of the remote [container.commit] call. *)
Record CommitArgs := {
  arg_repository : option string;
  arg_tag : option string;
  arg_message : option string;
  arg_author : option string;
  arg_changes : list string;
  arg_conf : option (gmap string string);
}.

(** The image handle [container.commit] returns. *)
Record Image := { image_id : string }.

(** The exceptions the module raises or lets through.  [sys.exit(code)]
    raises [SystemExit]; left uncaught it ends the process with that exit
    code. *)
Inductive exn :=
| RuntimeError (msg : string)
| ValueError (msg : string)
| AttributeError (msg : string)
| SystemExit (code : Z)
| APIError (msg : string)        (* docker.errors.APIError *)
| OtherError (msg : string)      (* anything else a library call raises *)
| OutOfFuel.                     (* the model's loop bound was reached *)

Inductive result (A : Type) :=
| Ok (a : A)
| Raise (e : exn).
Arguments Ok {A} a.
Arguments Raise {A} e.

(** A [cmd] argument: one shell string or an argument list. *)
Inductive command :=
| Shell (s : string)
| Argv (l : list string).

(** What the process does to the outside, in order. *)
Inductive event :=
| StdoutLine (line : string)          (* print(...) on sys.stdout *)
| StderrLine (line : string)          (* print(..., file=sys.stderr) *)
| StdoutWrite (data : bytes)          (* sys.stdout.buffer.write *)
| CallRun (image : string) (cmd : list string) (name : string)
          (volumes : gmap string Bind)   (* client.containers.run *)
| CallKill (c : Container)
| CallExec (c : Container) (cmd : list string)
           (kwargs : dockertools.ExecKwargs) (workdir : option string)
| CallPutArchive (c : Container) (dst : string) (archive : list TarMember)
| CallCommit (c : Container) (args : CommitArgs).

(** The module-level variables. *)
Record Globals := {
  container : option Container;
  buildtime_volumes : gmap string Bind;
  _workdir : option string;
  _cmd : option (list string);
  _entrypoint : option (list string);
  _user : option string;
  _expose : list string;
  _volumes : list string;
}.

(** The state at import: no container, nothing declared. *)
Definition initial : Globals :=
  {| container := None; buildtime_volumes := ∅; _workdir := None;
     _cmd := None; _entrypoint := None; _user := None;
     _expose := []; _volumes := [] |}.

Record World := {
  globals : Globals;
  trace : list event;
}.

(** ** The interfaces the module calls into *)

(** [client.containers.run] and the methods of the container object.
    Starting and stopping a container may raise, and the code has a
    handler for it.  [put_archive] and [commit] are followed on the path
    where the call returns, with the value it returns; a call that raises
    instead ends the function there with the library's exception, and the
    properties below say nothing of that path. *)
Class Docker := {
  containers_run :
    string -> list string -> string -> gmap string Bind -> result Container;
  container_kill : Container -> result unit;
  container_put_archive : Container -> string -> list TarMember -> bool;
  container_commit : Container -> CommitArgs -> Image;
  api_client :: dockertools.APIClient;
}.

(** The host: [nr.path], [os], [posixpath], [uuid], [tarfile] and the files
    [copy] reads. *)
Class Host := {
  path_sep : string;
  path_curdir : string;
  path_pardir : string;
  os_name : string;
  path_isabs : string -> bool;
  path_abs : string -> string;
  path_isfile : string -> bool;
  path_base : string -> string;
  path_chmod_update : Z -> string -> Z;
  os_stat_st_mode : string -> Z;
  read_binary : string -> bytes;               (* open(src, 'rb').read() *)
  tar_add : string -> string -> list TarMember;  (* tar.add(src, name, recursive=True) *)
  posixpath_join : string -> string -> string;
  posixpath_normpath : string -> string;
  uuid4 : string;                              (* str(uuid.uuid4()) *)
}.

(** ** The monad: module state, trace, exceptions *)

Definition M (A : Type) : Type := World -> result A * World.

Global Instance M_ret : MRet M := fun A a w => (Ok a, w).

Global Instance M_bind : MBind M := fun A B k m w =>
  match m w with
  | (Ok a, w') => k a w'
  | (Raise e, w') => (Raise e, w')
  end.

Definition raise {A} (e : exn) : M A := fun w => (Raise e, w).

Definition get : M Globals := fun w => (Ok (globals w), w).

Definition put (g : Globals) : M unit :=
  fun w => (Ok tt, {| globals := g; trace := trace w |}).

Definition emit (e : event) : M unit :=
  fun w => (Ok tt, {| globals := globals w; trace := trace w ++ [e] |}).

Definition lift {A} (r : result A) : M A := fun w => (r, w).

(** [try: m finally: f]. *)
Definition try_finally {A} (m : M A) (f : M unit) : M A :=
  fun w =>
    match m w with
    | (r, w') =>
        match f w' with
        | (Ok _, w'') => (r, w'')
        | (Raise e, w'') => (Raise e, w'')
        end
    end.

(** [try: m except docker.errors.APIError: pass]. *)
Definition except_APIError (m : M unit) : M unit :=
  fun w =>
    match m w with
    | (Raise (APIError _), w') => (Ok tt, w')
    | other => other
    end.

(** A model loop that may run out of fuel. *)
Definition lift_fuel {A} (o : option A) : M A :=
  match o with
  | Some a => mret a
  | None => raise OutOfFuel
  end.

(** Assignments to the module variables. *)
Definition set_container (c : option Container) (g : Globals) : Globals :=
  {| container := c; buildtime_volumes := buildtime_volumes g;
     _workdir := _workdir g; _cmd := _cmd g; _entrypoint := _entrypoint g;
     _user := _user g; _expose := _expose g; _volumes := _volumes g |}.

Definition set_buildtime_volumes (v : gmap string Bind) (g : Globals) : Globals :=
  {| container := container g; buildtime_volumes := v;
     _workdir := _workdir g; _cmd := _cmd g; _entrypoint := _entrypoint g;
     _user := _user g; _expose := _expose g; _volumes := _volumes g |}.

Definition set_workdir (v : option string) (g : Globals) : Globals :=
  {| container := container g; buildtime_volumes := buildtime_volumes g;
     _workdir := v; _cmd := _cmd g; _entrypoint := _entrypoint g;
     _user := _user g; _expose := _expose g; _volumes := _volumes g |}.

Definition set_cmd (v : option (list string)) (g : Globals) : Globals :=
  {| container := container g; buildtime_volumes := buildtime_volumes g;
     _workdir := _workdir g; _cmd := v; _entrypoint := _entrypoint g;
     _user := _user g; _expose := _expose g; _volumes := _volumes g |}.

Definition set_entrypoint (v : option (list string)) (g : Globals) : Globals :=
  {| container := container g; buildtime_volumes := buildtime_volumes g;
     _workdir := _workdir g; _cmd := _cmd g; _entrypoint := v;
     _user := _user g; _expose := _expose g; _volumes := _volumes g |}.

Definition set_user (v : option string) (g : Globals) : Globals :=
  {| container := container g; buildtime_volumes := buildtime_volumes g;
     _workdir := _workdir g; _cmd := _cmd g; _entrypoint := _entrypoint g;
     _user := v; _expose := _expose g; _volumes := _volumes g |}.

Definition set_expose (v : list string) (g : Globals) : Globals :=
  {| container := container g; buildtime_volumes := buildtime_volumes g;
     _workdir := _workdir g; _cmd := _cmd g; _entrypoint := _entrypoint g;
     _user := _user g; _expose := v; _volumes := _volumes g |}.

Definition set_volumes (v : list string) (g : Globals) : Globals :=
  {| container := container g; buildtime_volumes := buildtime_volumes g;
     _workdir := _workdir g; _cmd := _cmd g; _entrypoint := _entrypoint g;
     _user := _user g; _expose := _expose g; _volumes := v |}.

(** [global x; x = v]. *)
Definition assign (f : Globals -> Globals) : M unit :=
  g ← get; put (f g).

(** Modelled from the spec: [utils.merge_dictionary], whose module is not
    among the sources.  The specification has the mount configuration be the
    union of the buildtime volumes and the session's own, the buildtime
    entries taking lower precedence: on a key of both, the session's entry
    stays. *)
Definition merge_dictionary (a other : gmap string Bind)
  : gmap string Bind := other ∪ a.

(** ** api.py: functions *)

Section Functions.
Context `{Docker} `{Host}.

(** [error(message, code=1)]. *)
Definition error (message : string) (code : Z) : M unit :=
  emit (StderrLine message);; raise (SystemExit code).

Definition default_command : list string := ["sleep"; "999999999"].

(** The [finally] block of [new]. *)
Definition new_finally : M unit :=
  g ← get;
  match container g with
  | Some c => except_APIError (emit (CallKill c);; lift (container_kill c))
  | None => mret tt
  end;;
  assign (set_container None);;
  assign (set_workdir None);;
  assign (set_cmd None);;
  assign (set_entrypoint None);;
  assign (set_user None);;
  assign (set_expose []).

(** [with new(image, command, volumes=...): body].  The generator runs up
    to its [yield] on entry, [body] runs at the [yield], and the [finally]
    block runs on the way out, also when [body] raises. *)
Definition new {A} (image : string) (command : list string)
           (volumes : option (gmap string Bind)) (body : M A) : M A :=
  g ← get;
  match container g with
  | Some _ => raise (RuntimeError "new() can not be nested")
  | None =>
      let volumes :=
        merge_dictionary (buildtime_volumes g) (default ∅ volumes) in
      let name := "dib-temp-" +:+ String.substring 0 8 uuid4 in
      try_finally
        (emit (CallRun image command name volumes);;
         c ← lift (containers_run image command name volumes);
         assign (set_container (Some c));;
         body)
        new_finally
  end.

(** [if isinstance(cmd, str): cmd = ['bash', '-c', cmd]]. *)
Definition argv_of (cmd : command) : list string :=
  match cmd with
  | Shell s => ["bash"; "-c"; s]
  | Argv l => l
  end.

(** The working directory [run] passes on: the caller's [workdir] keyword
    when there is one ([workdir_kw = Some _]), else the declared [_workdir]
    when that is true, else the default [None]. *)
Definition run_workdir (g : Globals) (workdir_kw : option (option string))
  : option string :=
  match workdir_kw with
  | Some w => w
  | None => if PyStr.truthy_opt (_workdir g) then _workdir g else None
  end.

(** [run(cmd, **kwargs)]; [workdir_kw] is the [workdir] keyword when the
    caller gave one. *)
Definition run (cmd : command) (workdir_kw : option (option string))
           (kwargs : dockertools.ExecKwargs) : M unit :=
  g ← get;
  match container g with
  | None => raise (RuntimeError "no current container")
  | Some c =>
      let cmd_str :=
        match cmd with
        | Shell s => s
        | Argv l => PyStr.join " " (map shlex.quote l)
        end in
      emit (StdoutLine ("RUN " +:+ cmd_str));;
      emit (StdoutLine EmptyString);;
      let cmd := argv_of cmd in
      let workdir := run_workdir g workdir_kw in
      emit (CallExec c cmd kwargs workdir);;
      let result :=
        dockertools.container_exec (container_id c) cmd kwargs true workdir in
      '(ws, st) ← lift_fuel (dockertools.communicate result (b "    "));
      foldr (fun w k => emit (StdoutWrite w);; k) (mret tt) ws;;
      match st with
      | dockertools.Unfinished =>
          raise (RuntimeError "Hm could that really happen?")
      | dockertools.Returned res =>
          emit (StdoutLine EmptyString);;
          if negb (res =? 0)%Z
          then error ("ERROR exit code " +:+ PyStr.repr_int res) 1
          else mret tt
      end
  end.

(** [buildtime_volume(host_path, container_path, mode='rw')]. *)
Definition buildtime_volume (host_path container_path mode : string) : M unit :=
  g ← get;
  match container g with
  | Some _ =>
      raise (RuntimeError
        "buildtime_volume() can not be used from inside a build context")
  | None =>
      let seps := [path_sep] ++ (if String.eqb os_name "nt" then ["/"] else []) in
      let host_path :=
        if negb (path_isabs host_path)
           && (PyStr.startswith host_path path_curdir
               || PyStr.startswith host_path path_pardir
               || existsb (fun x => PyStr.contains x host_path) seps)
        then path_abs host_path
        else host_path in
      assign (fun g =>
        set_buildtime_volumes
          (<[host_path := {| bind := container_path; mode := mode |}]>
             (buildtime_volumes g)) g)
  end.

(** [workdir(path)]. *)
Definition workdir (path : string) : M unit :=
  g ← get;
  match container g with
  | None =>
      raise (RuntimeError "workdir() can not be used outside of a build context")
  | Some _ =>
      assign (set_workdir (Some path));;
      emit (StdoutLine ("WORKDIR " +:+ shlex.quote path))
  end.

(** [cmd(cmd)]. *)
Definition cmd (cmd : command) : M unit :=
  g ← get;
  match container g with
  | None =>
      raise (RuntimeError "cmd() can not be used outside of a build context")
  | Some _ => assign (set_cmd (Some (argv_of cmd)))
  end.

(** [entrypoint(cmd)]. *)
Definition entrypoint (cmd : command) : M unit :=
  g ← get;
  match container g with
  | None =>
      raise (RuntimeError
        "entrypoint() can not be used outside of a build context")
  | Some _ => assign (set_entrypoint (Some (argv_of cmd)))
  end.

(** [user(name, group=None)]. *)
Definition user (name : string) (group : option string) : M unit :=
  g ← get;
  match container g with
  | None =>
      raise (RuntimeError "user() can not be used outside of a build context")
  | Some _ =>
      match group with
      | Some grp =>
          if PyStr.truthy grp
          then assign (set_user (Some (name +:+ ":" +:+ grp)))
          else assign (set_user (Some name))
      | None => assign (set_user (Some name))
      end
  end.

(** [expose(decl)]: appends to the list [_expose] holds. *)
Definition expose (decl : string) : M unit :=
  g ← get;
  match container g with
  | None =>
      raise (RuntimeError "expose() can not be used outside of a build context")
  | Some _ => assign (fun g => set_expose (_expose g ++ [decl]) g)
  end.

(** [volume(decl)]: appends to the list [_volumes] holds (the message of
    its error names [expose()], as in the source). *)
Definition volume (decl : string) : M unit :=
  g ← get;
  match container g with
  | None =>
      raise (RuntimeError "expose() can not be used outside of a build context")
  | Some _ => assign (fun g => set_volumes (_volumes g ++ [decl]) g)
  end.

(** The [repository] and [tag] handling at the head of [commit]: the pair
    handed on to the remote call, or the [ValueError]. *)
Definition commit_target (repository tag : option string)
  : result (option string * option string) :=
  match repository with
  | Some r =>
      if PyStr.truthy r then
        let '(repository, _, implicit_tag) := PyStr.partition r ":" in
        if PyStr.truthy implicit_tag && negb (PyStr.truthy repository)
        then Raise (ValueError "tag without repository")
        else if PyStr.truthy_opt tag && PyStr.truthy implicit_tag
        then Raise (ValueError "tag in repository and tag argument")
        else Ok (Some repository, Some implicit_tag)
      else Ok (None, None)
  | None => Ok (None, None)
  end.

(** The [changes] list [commit] builds, append by append. *)
Definition commit_changes (g : Globals) : list string :=
  let changes := [] in
  let changes :=
    match _cmd g with
    | Some c => changes ++ ["CMD " +:+ json.dumps_list c]
    | None => changes
    end in
  let changes :=
    match _entrypoint g with
    | Some e => changes ++ ["ENTRYPOINT " +:+ json.dumps_list e]
    | None => changes
    end in
  let changes :=
    match _user g with
    | Some u => changes ++ ["USER " +:+ u]
    | None => changes
    end in
  let changes :=
    match _workdir g with
    | Some w => changes ++ ["WORKDIR " +:+ json.dumps_str w]
    | None => changes
    end in
  let changes :=
    fold_left (fun changes port => changes ++ ["EXPOSE " +:+ port])
              (_expose g) changes in
  let changes :=
    fold_left (fun changes vol => changes ++ ["VOLUME " +:+ vol])
              (_volumes g) changes in
  changes.

(** [commit(repository, tag, author, message, conf)]. *)
Definition commit (repository tag author message : option string)
           (conf : option (gmap string string)) : M Image :=
  g ← get;
  match container g with
  | None =>
      raise (RuntimeError "commit() can not be used outside of a build context")
  | Some c =>
      '(repository, tag) ← lift (commit_target repository tag);
      let args :=
        {| arg_repository := repository; arg_tag := tag;
           arg_message := message; arg_author := author;
           arg_changes := commit_changes g; arg_conf := conf |} in
      emit (CallCommit c args);;
      mret (container_commit c args)
  end.

(** [copy(src, dst, crlf_to_lf=False, chmod='')]. *)
Definition copy (src dst : string) (crlf_to_lf : bool) (chmod : string)
  : M unit :=
  g ← get;
  dst ←
    match _workdir g with
    | Some wd =>
        if PyStr.truthy wd then
          let dst := posixpath_normpath (posixpath_join wd dst) in
          emit (StdoutLine EmptyString);;
          emit (StdoutLine ("@@@ " +:+ dst));;
          emit (StdoutLine EmptyString);;
          mret dst
        else mret dst
    | None => mret dst
    end;
  archive ←
    (if crlf_to_lf && negb (path_isfile src) then
       raise (RuntimeError
         ("crlf_to_lf=True, but " +:+ chr dquote +:+ src +:+ chr dquote
            +:+ " is not a file"))
     else if crlf_to_lf then
       let content := PyBytes.replace (read_binary src) [CR; LF] [LF] in
       mret [ {| tar_name := path_base src;
                 tar_mode := path_chmod_update (os_stat_st_mode src) chmod;
                 tar_size := length content;
                 tar_content := content |} ]
     else mret (tar_add src (path_base src)));
  match container g with
  | None =>
      raise (AttributeError "'NoneType' object has no attribute 'put_archive'")
  | Some c =>
      emit (CallPutArchive c dst archive);;
      if container_put_archive c dst archive then mret tt
      else raise (RuntimeError "put_archive() failed")
  end.

End Functions.

Arguments commit_target : simpl never.

(** The [apt] helper class: static methods over [run]. *)
Module apt.
Section Helpers.
Context `{Docker} `{Host}.

(** [apt.clean()]. *)
Definition clean : M unit :=
  run (Shell "rm -rf /var/lib/apt/lists/*") None dockertools.default_kwargs.

(** [apt.update()]. *)
Definition update : M unit :=
  run (Argv ["apt-get"; "update"]) None dockertools.default_kwargs.

(** [apt.install]: the packages are its positional arguments, [yes]
    defaults to [True]. *)
Definition install (packages : list string) (yes : bool) : M unit :=
  let cmd := ["apt-get"; "install"] in
  let cmd := if yes then cmd ++ ["-y"] else cmd in
  let cmd := cmd ++ packages in
  run (Argv cmd) None dockertools.default_kwargs.

End Helpers.
End apt.

(** The [apk] helper class. *)
Module apk.
Section Helpers.
Context `{Docker} `{Host}.

(** [apk.clean()]. *)
Definition clean : M unit :=
  run (Shell "rm -rf /var/cache/apk/* /var/cache/distfiles/*") None
      dockertools.default_kwargs.

(** [apk.update()]. *)
Definition update : M unit :=
  run (Shell "apk update") None dockertools.default_kwargs.

(** [apk.add]: the packages are its positional arguments. *)
Definition add (packages : list string) : M unit :=
  run (Argv (["apk"; "add"] ++ packages)) None dockertools.default_kwargs.

End Helpers.
End apk.

End api.

(** ** Scripts of metadata declarations *)

Module Script.
Import api.

(** One call of a metadata function. *)
Inductive mutation :=
| SetWorkdir (path : string)
| SetCmd (c : command)
| SetEntrypoint (c : command)
| SetUser (name : string) (group : option string)
| AddExpose (decl : string)
| AddVolume (decl : string).

Section Run.
Context `{Docker} `{Host}.

Definition step (m : mutation) : M unit :=
  match m with
  | SetWorkdir path => workdir path
  | SetCmd c => cmd c
  | SetEntrypoint c => entrypoint c
  | SetUser name group => user name group
  | AddExpose decl => expose decl
  | AddVolume decl => volume decl
  end.

Fixpoint steps (ms : list mutation) : M unit :=
  match ms with
  | [] => mret tt
  | m :: rest => step m;; steps rest
  end.

End Run.

(** What a script declares, read off the script: for a scalar field the
    value of the last call that sets it, for ports and volumes every
    declaration in order. *)
Definition workdir_of (m : mutation) : option string :=
  match m with SetWorkdir path => Some path | _ => None end.

Definition cmd_of (m : mutation) : option (list string) :=
  match m with SetCmd c => Some (argv_of c) | _ => None end.

Definition entrypoint_of (m : mutation) : option (list string) :=
  match m with SetEntrypoint c => Some (argv_of c) | _ => None end.

Definition user_of (m : mutation) : option string :=
  match m with
  | SetUser name (Some (String c grp)) => Some (name +:+ ":" +:+ String c grp)
  | SetUser name _ => Some name
  | _ => None
  end.

Definition expose_of (m : mutation) : option string :=
  match m with AddExpose decl => Some decl | _ => None end.

Definition volume_of (m : mutation) : option string :=
  match m with AddVolume decl => Some decl | _ => None end.

Definition declared {A} (f : mutation -> option A) (ms : list mutation)
  : option A := last (omap f ms).

(** The directive list the specification describes for a script. *)
Definition directives (ms : list mutation) : list string :=
  option_list (String.append "CMD " <$> (json.dumps_list <$> declared cmd_of ms))
  ++ option_list (String.append "ENTRYPOINT "
                    <$> (json.dumps_list <$> declared entrypoint_of ms))
  ++ option_list (String.append "USER " <$> declared user_of ms)
  ++ option_list (String.append "WORKDIR "
                    <$> (json.dumps_str <$> declared workdir_of ms))
  ++ map (String.append "EXPOSE ") (omap expose_of ms)
  ++ map (String.append "VOLUME ") (omap volume_of ms).

(** The module variables once a script has run inside a session that
    started from [g]. *)
Definition after (ms : list mutation) (g : Globals) : Globals :=
  {| container := container g;
     buildtime_volumes := buildtime_volumes g;
     _workdir := from_option Some (_workdir g) (declared workdir_of ms);
     _cmd := from_option Some (_cmd g) (declared cmd_of ms);
     _entrypoint := from_option Some (_entrypoint g) (declared entrypoint_of ms);
     _user := from_option Some (_user g) (declared user_of ms);
     _expose := _expose g ++ omap expose_of ms;
     _volumes := _volumes g ++ omap volume_of ms |}.

End Script.

(** ** Line-ending normalisation as the specification words it *)

Module CrlfSpec.

(** The content with every CR that stands directly before an LF left out,
    and nothing else changed. *)
Fixpoint drop_cr_before_lf (data : bytes) : bytes :=
  match data with
  | [] => []
  | x :: rest =>
      match rest with
      | y :: _ =>
          if Byte.eqb x CR && Byte.eqb y LF then drop_cr_before_lf rest
          else x :: drop_cr_before_lf rest
      | [] => [x]
      end
  end.

(** Does a CRLF pair occur in the content? *)
Fixpoint has_crlf (data : bytes) : bool :=
  match data with
  | [] => false
  | x :: rest =>
      match rest with
      | y :: _ => (Byte.eqb x CR && Byte.eqb y LF) || has_crlf rest
      | [] => false
      end
  end.

(** Does a CR stand directly before a CRLF pair? *)
Fixpoint has_cr_crlf (data : bytes) : bool :=
  match data with
  | [] => false
  | x :: rest =>
      match rest with
      | y :: z :: _ =>
          (Byte.eqb x CR && Byte.eqb y CR && Byte.eqb z LF) || has_cr_crlf rest
      | _ => false
      end
  end.

End CrlfSpec.

(** ** A concrete host and daemon for the examples *)

Module Sample.
Import api.

(** The last component of a POSIX path. *)
Fixpoint base_go (s acc : string) : string :=
  match s with
  | EmptyString => acc
  | String c rest =>
      if Ascii.eqb c "/" then base_go rest EmptyString
      else base_go rest (acc +:+ chr c)
  end.

(** A POSIX host whose working directory is [cwd] and whose regular files
    are the keys of [files]. *)
Definition host (cwd : string) (files : gmap string bytes) : Host :=
  {| path_sep := "/";
     path_curdir := ".";
     path_pardir := "..";
     os_name := "posix";
     path_isabs := fun p => PyStr.startswith p "/";
     path_abs := fun p =>
       if PyStr.startswith p "/" then p else cwd +:+ "/" +:+ p;
     path_isfile := fun p => bool_decide (is_Some (files !! p));
     path_base := fun p => base_go p EmptyString;
     path_chmod_update := fun flags _ => flags;
     os_stat_st_mode := fun _ => 33188%Z;
     read_binary := fun p => default [] (files !! p);
     tar_add := fun src name =>
       match files !! src with
       | Some content =>
           [ {| tar_name := name; tar_mode := 33188%Z;
                tar_size := length content; tar_content := content |} ]
       | None => []
       end;
     posixpath_join := fun a p =>
       if PyStr.startswith p "/" then p else a +:+ "/" +:+ p;
     posixpath_normpath := fun p => p;
     uuid4 := "0f8fad5b-d9cb-469f-a165-70867728950e" |}.

(** An exec API whose commands all print [chunks] and end with
    [exit_code]. *)
Definition client (chunks : list bytes) (exit_code : option Z)
  : dockertools.APIClient :=
  {| dockertools.exec_create := fun cid _ _ _ => cid +:+ "-exec";
     dockertools.exec_start := fun _ _ _ => chunks;
     dockertools.exec_inspect := fun _ => exit_code |}.

(** A daemon that starts every container asked for, names it after the
    [name] argument, and accepts every archive. *)
Definition docker (chunks : list bytes) (exit_code : option Z) : Docker :=
  {| containers_run := fun _ _ name _ => Ok {| container_id := name |};
     container_kill := fun _ => Ok tt;
     container_put_archive := fun _ _ _ => true;
     container_commit := fun c _ => {| image_id := container_id c +:+ "-image" |};
     api_client := client chunks exit_code |}.

(** The process right after [import]: nothing declared, nothing printed. *)
Definition start : World := {| globals := initial; trace := [] |}.

(** Inside a build context with nothing declared yet. *)
Definition opened (c : Container) : World :=
  {| globals := set_container (Some c) initial; trace := [] |}.

End Sample.

(** ** What [run] leaves on the trace *)

Module RunSpec.
Import api.

(** What [run] prints and sends before it looks at the exit status. *)
Definition run_trace (c : Container) (cmd : command)
           (workdir : option string) (kwargs : dockertools.ExecKwargs)
           (ws : list bytes) : list event :=
  [ StdoutLine ("RUN " +:+ match cmd with
                      | Shell s => s
                      | Argv l => PyStr.join " " (map shlex.quote l)
                      end);
    StdoutLine EmptyString;
    CallExec c (argv_of cmd) kwargs workdir ]
  ++ map StdoutWrite ws ++ [StdoutLine EmptyString].

End RunSpec.

(** ** Where [copy] uploads to *)

Module CopySpec.
Import api.

Section WithHost.
Context `{Host}.

(** The destination [copy] uploads to: [dst] joined to the declared working
    directory and normalised when one is declared, else [dst] itself. *)
Definition target (g : Globals) (dst : string) : string :=
  match _workdir g with
  | Some (String c wd) =>
      posixpath_normpath (posixpath_join (String c wd) dst)
  | _ => dst
  end.

(** What [copy] prints about the destination. *)
Definition announce (g : Globals) (dst : string) : list event :=
  match _workdir g with
  | Some (String _ _) =>
      [ StdoutLine EmptyString;
        StdoutLine ("@@@ " +:+ target g dst);
        StdoutLine EmptyString ]
  | _ => []
  end.

End WithHost.

(** Is the event an archive upload? *)
Definition is_upload (e : event) : bool :=
  match e with
  | CallPutArchive _ _ _ => true
  | _ => false
  end.

End CopySpec.

(** ** Shapes of what the session functions leave behind *)

Module SessionSpec.
Import api Script.

(** The module variables as the [finally] block of [new] leaves them. *)
Definition closed (g : Globals) : Globals :=
  {| container := None;
     buildtime_volumes := buildtime_volumes g;
     _workdir := None; _cmd := None; _entrypoint := None;
     _user := None; _expose := [];
     _volumes := _volumes g |}.

(** The stop request the [finally] block sends, when a container is set. *)
Definition kill_events (g : Globals) : list event :=
  match container g with
  | Some c => [CallKill c]
  | None => []
  end.

(** Is stopping the container harmless: does [kill] return, or fail with
    the [APIError] the [finally] block swallows? *)
Definition kill_swallowed (r : result unit) : bool :=
  match r with
  | Ok _ => true
  | Raise (APIError _) => true
  | Raise _ => false
  end.

(** The lines a script of metadata calls prints: one per [workdir] call. *)
Definition workdir_lines (ms : list mutation) : list event :=
  map (fun path => StdoutLine ("WORKDIR " +:+ shlex.quote path))
      (omap workdir_of ms).

(** What [run] prints and sends up to the exec call. *)
Definition run_call (c : Container) (cmd : command)
           (workdir : option string) (kwargs : dockertools.ExecKwargs)
  : list event :=
  [ StdoutLine ("RUN " +:+ match cmd with
                           | Shell s => s
                           | Argv l => PyStr.join " " (map shlex.quote l)
                           end);
    StdoutLine EmptyString;
    CallExec c (argv_of cmd) kwargs workdir ].

(** How [run] ends on each outcome of [communicate]: its result and what
    it still prints. *)
Definition run_ending (st : dockertools.drained)
  : result unit * list event :=
  match st with
  | dockertools.Unfinished =>
      (Raise (RuntimeError "Hm could that really happen?"), [])
  | dockertools.Returned res =>
      if (res =? 0)%Z then (Ok tt, [StdoutLine EmptyString])
      else (Raise (SystemExit 1),
            [ StdoutLine EmptyString;
              StderrLine ("ERROR exit code " +:+ PyStr.repr_int res) ])
  end.

(** Is the event a call to the daemon? *)
Definition is_remote (e : event) : bool :=
  match e with
  | StdoutLine _ | StderrLine _ | StdoutWrite _ => false
  | _ => true
  end.

End SessionSpec.

(** ** Shapes of what the drain writes *)

Module DrainShape.

(** One slice the drain writes after a prefix: not empty, and with no
    ['\n'] before its last byte. *)
Definition is_slice (l : bytes) : bool :=
  match l with
  | [] => false
  | _ :: _ => forallb (fun x => negb (Byte.eqb x LF)) (removelast l)
  end.

(** The writes for a list of slices: the prefix, then the slice. *)
Definition interleave (line_prefix : bytes) (slices : list bytes)
  : list bytes :=
  flat_map (fun l => [line_prefix; l]) slices.

End DrainShape.

(** ** Daemons that fail, for the examples *)

Module Faulty.
Import api.

(** A daemon that cannot start a container: the image does not exist. *)
Definition no_image : Docker :=
  {| containers_run := fun _ _ _ _ => Raise (APIError "404 image not found");
     container_kill := fun _ => Ok tt;
     container_put_archive := fun _ _ _ => true;
     container_commit := fun c _ =>
       {| image_id := container_id c +:+ "-image" |};
     api_client := Sample.client [] (Some 0%Z) |}.

(** A daemon that starts containers but is out of reach when asked to stop
    one: [kill] fails with a connection error, not an [APIError]. *)
Definition unreachable : Docker :=
  {| containers_run := fun _ _ name _ => Ok {| container_id := name |};
     container_kill := fun _ => Raise (OtherError "ConnectionError");
     container_put_archive := fun _ _ _ => true;
     container_commit := fun c _ =>
       {| image_id := container_id c +:+ "-image" |};
     api_client := Sample.client [] (Some 0%Z) |}.

End Faulty.

(** * Properties *)

(** ** The exec output drain *)

Section Drain.
Import PyBytes dockertools DrainSpec.

Lemma find_in_Some c l i n :
  find_in c l i = Some n ->
  exists k, n = i + k /\ l !! k = Some c /\ Forall (fun x => x <> c) (take k l).
Proof.
  revert i. induction l as [|x l IH]; intros i Hf; simpl in Hf; [discriminate|].
  destruct (Byte.eqb x c) eqn:E.
  - injection Hf as <-. apply byte_dec_bl in E. subst x.
    exists 0. repeat split; [lia | constructor].
  - destruct (IH _ Hf) as (k & -> & Hk & Hall).
    exists (S k). repeat split; [lia | exact Hk |].
    simpl. constructor; [|exact Hall].
    intros ->. rewrite (byte_dec_lb eq_refl) in E. discriminate.
Qed.

Lemma find_in_None c l i :
  find_in c l i = None -> Forall (fun x => x <> c) l.
Proof.
  revert i. induction l as [|x l IH]; intros i Hf; simpl in Hf; [constructor|].
  destruct (Byte.eqb x c) eqn:E; [discriminate|].
  constructor; [|eauto].
  intros ->. rewrite (byte_dec_lb eq_refl) in E. discriminate.
Qed.

Lemma prefixed_inside p seg rest :
  Forall (fun x => x <> LF) seg ->
  prefixed p false (seg ++ rest) = seg ++ prefixed p false rest.
Proof.
  induction 1 as [|x seg Hx _ IH]; [reflexivity|].
  simpl. destruct (Byte.eqb x LF) eqn:E.
  - apply byte_dec_bl in E. contradiction.
  - now rewrite IH.
Qed.

(** A terminated line at the head of the stream. *)
Lemma prefixed_line p seg rest :
  Forall (fun x => x <> LF) seg ->
  prefixed p true (seg ++ LF :: rest)
  = p ++ seg ++ [LF] ++ prefixed p true rest.
Proof.
  intros Hseg. destruct Hseg as [|x seg Hx Hseg]; [reflexivity|].
  simpl. destruct (Byte.eqb x LF) eqn:E.
  - apply byte_dec_bl in E. contradiction.
  - now rewrite prefixed_inside.
Qed.

(** An unterminated, non-empty rest of the stream. *)
Lemma prefixed_partial p l :
  l <> [] -> Forall (fun x => x <> LF) l -> prefixed p true l = p ++ l.
Proof.
  intros Hne Hl. destruct Hl as [|x l Hx Hl]; [contradiction|].
  simpl. destruct (Byte.eqb x LF) eqn:E.
  - apply byte_dec_bl in E. contradiction.
  - rewrite <- (app_nil_r l) at 1. rewrite prefixed_inside by assumption.
    simpl. now rewrite app_nil_r.
Qed.

(** The inner loop never runs out of fuel when given [len(data)] turns, and
    it writes the rest of the chunk with the prefix before each of its
    lines. *)
Lemma write_chunk_spec p data fuel offset :
  length data - offset <= fuel ->
  exists ws, write_chunk fuel p data offset = Some ws
             /\ concat ws = prefixed p true (drop offset data).
Proof.
  revert offset. induction fuel as [|fuel IH]; intros offset Hfuel.
  - exists []. simpl.
    destruct (offset <? length data) eqn:E.
    + apply Nat.ltb_lt in E. lia.
    + apply Nat.ltb_ge in E. now rewrite drop_ge.
  - simpl. destruct (offset <? length data) eqn:E.
    2:{ exists []. apply Nat.ltb_ge in E. now rewrite drop_ge. }
    apply Nat.ltb_lt in E.
    unfold find, slice, slice_from.
    set (l := drop offset data).
    assert (Hl : length l = length data - offset) by apply length_drop.
    destruct (find_in LF l offset) as [nl|] eqn:F.
    + destruct (find_in_Some _ _ _ _ F) as (k & -> & Hk & Hseg).
      pose proof (lookup_lt_Some _ _ _ Hk) as Hlt.
      destruct (IH (offset + k + 1)) as (ws & -> & Hws); [lia|].
      eexists. split; [reflexivity|].
      simpl. rewrite Hws.
      replace (offset + k + 1 - offset) with (S k) by lia.
      replace (drop (offset + k + 1) data) with (drop (S k) l)
        by (unfold l; rewrite drop_drop; f_equal; lia).
      rewrite <- (take_drop_middle l k LF Hk) at 3.
      rewrite prefixed_line by assumption.
      rewrite (take_S_r l k LF Hk). now rewrite <- !app_assoc.
    + pose proof (find_in_None _ _ _ F) as Hall.
      destruct (IH (offset + length l)) as (ws & Hw & Hws); [lia|].
      rewrite Hw. eexists. split; [reflexivity|].
      simpl. rewrite Hws.
      rewrite (drop_ge data) by lia. simpl. rewrite app_nil_r.
      symmetry. apply prefixed_partial; [|assumption].
      intros Hnil. rewrite Hnil in Hl. simpl in Hl. lia.
Qed.

(** The outer loop prefixes every chunk on its own. *)
Lemma write_output_spec p chunks :
  exists ws, write_output p chunks = Some ws
             /\ written ws = concat (map (prefix_lines p) chunks).
Proof.
  induction chunks as [|data more (rest & Hrest & Hcat)].
  - now exists [].
  - destruct data as [|x data'] eqn:Ed.
    + exists rest. split; [exact Hrest | exact Hcat].
    + rewrite <- Ed.
      destruct (write_chunk_spec p data (length data) 0) as (ws & Hw & Hws);
        [lia|].
      exists (ws ++ rest). split.
      * rewrite Ed in *. simpl. simpl in Hw. rewrite Hw. simpl.
        rewrite Hrest. reflexivity.
      * unfold written in *. rewrite concat_app, Hws, Hcat. reflexivity.
Qed.

(** [communicate] always gets through the stream. *)
Lemma communicate_total `{APIClient} self p :
  exists ws, communicate self p = Some (ws, status self)
             /\ written ws = concat (map (prefix_lines p) (output self)).
Proof.
  destruct (write_output_spec p (output self)) as (ws & Hw & Hcat).
  exists ws. unfold communicate. rewrite Hw. now split.
Qed.

Lemma prefixed_app p s a rest :
  prefixed p s (a ++ rest)
  = prefixed p s a ++ prefixed p (line_start_after s a) rest.
Proof.
  revert s. induction a as [|x a IH]; intros s; [reflexivity|].
  simpl. rewrite IH. unfold line_start_after. simpl.
  now rewrite <- !app_assoc.
Qed.

Lemma prefix_lines_chunks p chunks final :
  Forall whole_lines chunks ->
  concat (map (prefix_lines p) (chunks ++ [final]))
  = prefix_lines p (concat (chunks ++ [final])).
Proof.
  induction 1 as [|data chunks Hdata _ IH].
  - simpl. now rewrite !app_nil_r.
  - simpl. rewrite IH. unfold prefix_lines at 3.
    rewrite prefixed_app. now rewrite Hdata.
Qed.

(** When no line is split between two chunks, the output is the stream
    with the prefix before every line. *)
Lemma communicate_whole_lines `{APIClient} self p chunks final :
  output self = chunks ++ [final] ->
  Forall whole_lines chunks ->
  exists ws, communicate self p = Some (ws, status self)
             /\ written ws = prefix_lines p (concat (output self)).
Proof.
  intros Hout Hwhole.
  destruct (communicate_total self p) as (ws & Hc & Hw).
  exists ws. split; [exact Hc|].
  rewrite Hw, Hout. now apply prefix_lines_chunks.
Qed.

(** C2: [communicate] is meant to put [line_prefix] once before every line
    of the output however the stream is cut into chunks.  On the stream
    ['abc\n'] arriving as the chunks ['ab'] and ['c\n'] with the prefix
    ['> '] it writes ['> ab> c\n']: the prefix is written again at the head
    of the second chunk, inside the line, where the stream with one prefix
    per line is ['> abc\n']. *)
Theorem communicate_prefixes_inside_split_line :
  let client := Sample.client [b "ab"; b "c" ++ [LF]] (Some 0%Z) in
  let self := container_exec "c1" ["cat"; "f"] default_kwargs true None in
  output self = [b "ab"; b "c" ++ [LF]]
  /\ prefix_lines (b "> ") (concat (output self)) = b "> abc" ++ [LF]
  /\ exists ws, communicate self (b "> ") = Some (ws, Returned 0)
                /\ written ws = b "> ab> c" ++ [LF]
                /\ written ws <> prefix_lines (b "> ") (concat (output self)).
Proof.
  split; [reflexivity|]. split; [reflexivity|].
  exists [b "> "; b "ab"; b "> "; b "c" ++ [LF]].
  split; [reflexivity|]. split; [reflexivity | discriminate].
Qed.

End Drain.

(** ** The session *)

(** Unfold the monad's operations in the goal. *)
Ltac step_monad :=
  unfold api.assign, api.error;
  repeat (unfold mbind, api.M_bind, mret, api.M_ret, api.get, api.put, api.emit,
          api.raise, api.lift; simpl).

Section Session.
Import api Script.
Context `{Docker} `{Host}.

(** C9: with no session open, each of [workdir], [cmd], [entrypoint],
    [user], [expose], [volume] and [run] raises a [RuntimeError], and the
    module variables (and everything the process has printed or sent) are
    as they were. *)
Theorem no_session_is_usage_error
        (m : mutation) (c : command) (workdir_kw : option (option string))
        (kwargs : dockertools.ExecKwargs) (w : World) :
  container (globals w) = None ->
  (exists msg, step m w = (Raise (RuntimeError msg), w))
  /\ run c workdir_kw kwargs w = (Raise (RuntimeError "no current container"), w).
Proof.
  intros Hc. split.
  - destruct m; simpl;
      unfold workdir, cmd, entrypoint, user, expose, volume;
      step_monad; rewrite Hc; eexists; reflexivity.
  - unfold run. step_monad. now rewrite Hc.
Qed.

(** C8: [new] inside an open session raises
    [RuntimeError('new() can not be nested')] before it does anything: the
    container handle, the declared metadata and the buildtime volumes are
    as they were, and nothing was sent to the daemon. *)
Theorem nested_new_is_usage_error
        {A} (image : string) (command : list string)
        (volumes : option (gmap string Bind)) (body : M A)
        (w : World) (c : Container) :
  container (globals w) = Some c ->
  new image command volumes body w
  = (Raise (RuntimeError "new() can not be nested"), w).
Proof.
  intros Hc. unfold new. step_monad. now rewrite Hc.
Qed.

Lemma from_option_last {A} (d : option A) (x : A) (l : list A) :
  from_option Some d (last (x :: l)) = from_option Some (Some x) (last l).
Proof. rewrite last_cons. now destruct (last l). Qed.

Lemma after_nil g : after [] g = g.
Proof. destruct g. unfold after. simpl. now rewrite !app_nil_r. Qed.

(** One call inside a session succeeds and changes the one field it
    declares. *)
Lemma step_after m w c :
  container (globals w) = Some c ->
  exists tr, step m w
             = (Ok tt, {| globals := after [m] (globals w);
                          trace := trace w ++ tr |}).
Proof.
  destruct w as [g tr0]. simpl. intros Hc.
  destruct m as [p|cm|cm|name group|decl|decl]; simpl;
    unfold workdir, cmd, entrypoint, user, expose, volume;
    step_monad; rewrite Hc; step_monad.
  1: exists [StdoutLine ("WORKDIR " +:+ shlex.quote p)].
  2-3: exists [].
  4: exists []; destruct group as [[|ch grp]|]; step_monad.
  7-8: exists [].
  all: destruct g; unfold after, declared; simpl in *;
       rewrite ?app_nil_r; reflexivity.
Qed.

Lemma after_cons m ms g : after ms (after [m] g) = after (m :: ms) g.
Proof.
  destruct g. unfold after, declared. simpl.
  destruct m as [p|cm|cm|name [[|ch grp]|]|decl|decl]; simpl;
    rewrite ?app_nil_r, ?from_option_last, <- ?app_assoc; reflexivity.
Qed.

(** A whole script inside a session succeeds and leaves the variables the
    script declares. *)
Lemma steps_after ms w c :
  container (globals w) = Some c ->
  exists tr, steps ms w
             = (Ok tt, {| globals := after ms (globals w);
                          trace := trace w ++ tr |}).
Proof.
  revert w. induction ms as [|m ms IH]; intros w Hc.
  - exists []. destruct w as [g tr0]. simpl.
    now rewrite after_nil, app_nil_r.
  - destruct (step_after m w c Hc) as (tr1 & Hstep).
    simpl. step_monad. rewrite Hstep.
    destruct (IH {| globals := after [m] (globals w);
                    trace := trace w ++ tr1 |}) as (tr2 & Hrest).
    { simpl. exact Hc. }
    rewrite Hrest. simpl. exists (tr1 ++ tr2).
    now rewrite after_cons, app_assoc.
Qed.

Lemma fold_left_append {A} (f : A -> string) (l : list A) (acc : list string) :
  fold_left (fun changes x => changes ++ [f x]) l acc = acc ++ map f l.
Proof.
  revert acc. induction l as [|x l IH]; intros acc; simpl.
  - now rewrite app_nil_r.
  - now rewrite IH, <- app_assoc.
Qed.

(** The list [commit] builds is the directive list of the script. *)
Lemma commit_changes_after ms g :
  _workdir g = None -> _cmd g = None -> _entrypoint g = None ->
  _user g = None -> _expose g = [] -> _volumes g = [] ->
  commit_changes (after ms g) = directives ms.
Proof.
  intros Hw Hcm He Hu Hx Hv.
  unfold commit_changes, directives, after. simpl.
  rewrite Hw, Hcm, He, Hu, Hx, Hv. simpl.
  rewrite !fold_left_append.
  destruct (declared cmd_of ms), (declared entrypoint_of ms),
    (declared user_of ms), (declared workdir_of ms);
    simpl; rewrite <- ?app_assoc; reflexivity.
Qed.

(** C1: a script of [workdir], [cmd], [entrypoint], [user], [expose] and
    [volume] calls inside a freshly opened session always runs through, and
    a [commit] after it either raises the [ValueError] of its
    repository-and-tag check or hands the daemon exactly the directives of
    the script as [changes]: [CMD] and [ENTRYPOINT] with the JSON array of
    the last arguments set, [USER] with the raw string, [WORKDIR] with the
    JSON string, each present when the field was set, then one [EXPOSE]
    per port and one [VOLUME] per volume in the order declared.  The empty
    script gives the empty list. *)
Theorem commit_changes_follow_script
        (ms : list mutation) (c : Container) (bv : gmap string Bind)
        (tr : list event) (repository tag author message : option string)
        (conf : option (gmap string string)) :
  let w0 := {| globals := set_buildtime_volumes bv
                            (set_container (Some c) initial);
               trace := tr |} in
  exists w1,
    steps ms w0 = (Ok tt, w1)
    /\ match commit_target repository tag with
       | Ok (r, t) =>
           let args :=
             {| arg_repository := r; arg_tag := t; arg_message := message;
                arg_author := author; arg_changes := directives ms;
                arg_conf := conf |} in
           commit repository tag author message conf w1
           = (Ok (container_commit c args),
              {| globals := globals w1;
                 trace := trace w1 ++ [CallCommit c args] |})
       | Raise e =>
           commit repository tag author message conf w1 = (Raise e, w1)
       end
    /\ directives [] = [].
Proof.
  intros w0.
  destruct (steps_after ms w0 c eq_refl) as (tr1 & Hsteps).
  eexists. split; [exact Hsteps|]. split; [|reflexivity].
  unfold commit. step_monad.
  destruct (commit_target repository tag) as [[r t]|e]; step_monad.
  - now rewrite commit_changes_after.
  - reflexivity.
Qed.

End Session.

(** A script that sets the command twice and declares two ports: the
    changes [commit] hands over, with their JSON encoding. *)
Example commit_changes_of_a_script :
  let docker := Sample.docker [] (Some 0%Z) in
  let host := Sample.host "/build" ∅ in
  let c := {| api.container_id := "dib-temp-0f8fad5b" |} in
  let script :=
    [ Script.SetWorkdir "/app";
      Script.SetCmd (api.Shell "echo hi");
      Script.AddExpose "8080";
      Script.SetUser "app" (Some "staff");
      Script.AddVolume "/data";
      Script.SetEntrypoint (api.Argv ["tini"; "--"]);
      Script.AddExpose "53/udp";
      Script.SetCmd (api.Shell ("say " +:+ chr dquote +:+ "hi" +:+ chr dquote)) ] in
  let w1 := (Script.steps script (Sample.opened c)).2 in
  api.commit_changes (api.globals w1)
  = [ "CMD [" +:+ chr dquote +:+ "bash" +:+ chr dquote +:+ ", "
        +:+ chr dquote +:+ "-c" +:+ chr dquote +:+ ", "
        +:+ chr dquote +:+ "say \" +:+ chr dquote +:+ "hi\" +:+ chr dquote
        +:+ chr dquote +:+ "]";
      "ENTRYPOINT [" +:+ chr dquote +:+ "tini" +:+ chr dquote +:+ ", "
        +:+ chr dquote +:+ "--" +:+ chr dquote +:+ "]";
      "USER app:staff";
      "WORKDIR " +:+ chr dquote +:+ "/app" +:+ chr dquote;
      "EXPOSE 8080";
      "EXPOSE 53/udp";
      "VOLUME /data" ].
Proof. reflexivity. Qed.

(** C9 at a concrete call: [workdir('/app')] and [run('make')] right after
    import. *)
Lemma no_session_is_usage_error_witness :
  let docker := Sample.docker [] (Some 0%Z) in
  let host := Sample.host "/build" ∅ in
  api.container (api.globals Sample.start) = None
  /\ (exists msg, Script.step (Script.SetWorkdir "/app") Sample.start
                  = (api.Raise (api.RuntimeError msg), Sample.start))
  /\ api.run (api.Shell "make") None dockertools.default_kwargs Sample.start
     = (api.Raise (api.RuntimeError "no current container"), Sample.start).
Proof.
  intros docker host. split; [reflexivity|].
  apply (no_session_is_usage_error (Script.SetWorkdir "/app")
           (api.Shell "make") None dockertools.default_kwargs Sample.start).
  reflexivity.
Defined.

(** C8 at a concrete call: a second [new('alpine')] with a container
    running and a working directory declared. *)
Lemma nested_new_is_usage_error_witness :
  let docker := Sample.docker [] (Some 0%Z) in
  let host := Sample.host "/build" ∅ in
  let c := {| api.container_id := "dib-temp-0f8fad5b" |} in
  let w := {| api.globals := api.set_workdir (Some "/app")
                               (api.set_container (Some c) api.initial);
              api.trace := [] |} in
  api.container (api.globals w) = Some c
  /\ api.new "alpine" api.default_command None (api.workdir "/srv") w
     = (api.Raise (api.RuntimeError "new() can not be nested"), w).
Proof.
  intros docker host c w. split; [reflexivity|].
  apply (nested_new_is_usage_error "alpine" api.default_command None
           (api.workdir "/srv") w c).
  reflexivity.
Defined.

(** ** Running commands *)

Section Exec.
Import api RunSpec.
Context `{Docker} `{Host}.

Lemma emit_writes (ws : list bytes) (w : World) :
  foldr (fun x k => emit (StdoutWrite x);; k) (mret tt) ws w
  = (Ok tt, {| globals := globals w; trace := trace w ++ map StdoutWrite ws |}).
Proof.
  revert w. induction ws as [|x ws IH]; intros [g tr]; step_monad.
  - now rewrite app_nil_r.
  - rewrite IH. simpl. now rewrite <- app_assoc.
Qed.

Lemma status_of_poll self code :
  dockertools.poll self = Some code ->
  dockertools.status self = dockertools.Returned code.
Proof. intros Hp. unfold dockertools.status. now rewrite Hp. Qed.

(** C5: when the command [run] started ends with a status other than 0,
    [run] prints [ERROR exit code <status>] on standard error and raises
    [SystemExit(1)], which ends the script's process with exit code 1; when
    the status is 0, [run] returns and nothing goes to standard error.
    Either way the module variables are untouched. *)
Theorem run_exit_status
        (cmd : command) (workdir_kw : option (option string))
        (kwargs : dockertools.ExecKwargs) (w : World) (c : Container)
        (code : Z) :
  container (globals w) = Some c ->
  dockertools.poll
    (dockertools.container_exec (container_id c) (argv_of cmd) kwargs true
       (run_workdir (globals w) workdir_kw)) = Some code ->
  exists ws,
    let tr := run_trace c cmd (run_workdir (globals w) workdir_kw) kwargs ws in
    dockertools.communicate
      (dockertools.container_exec (container_id c) (argv_of cmd) kwargs true
         (run_workdir (globals w) workdir_kw)) (b "    ")
    = Some (ws, dockertools.Returned code)
    /\ (code <> 0%Z ->
        run cmd workdir_kw kwargs w
        = (Raise (SystemExit 1),
           {| globals := globals w;
              trace := trace w ++ tr
                       ++ [StderrLine ("ERROR exit code " +:+ PyStr.repr_int code)] |}))
    /\ (code = 0%Z ->
          run cmd workdir_kw kwargs w
          = (Ok tt, {| globals := globals w; trace := trace w ++ tr |})).
Proof.
  intros Hc Hpoll.
  set (self := dockertools.container_exec _ _ _ _ _) in Hpoll.
  destruct (communicate_total self (b "    ")) as (ws & Hcomm & _).
  rewrite (status_of_poll _ _ Hpoll) in Hcomm.
  exists ws. simpl.
  assert (Hrun : run cmd workdir_kw kwargs w
    = (if negb (code =? 0)%Z then Raise (SystemExit 1) else Ok tt,
       {| globals := globals w;
          trace := trace w
            ++ run_trace c cmd (run_workdir (globals w) workdir_kw) kwargs ws
            ++ (if negb (code =? 0)%Z
                then [StderrLine ("ERROR exit code " +:+ PyStr.repr_int code)]
                else []) |})).
  { unfold run. step_monad. rewrite Hc. step_monad.
    fold self. rewrite Hcomm. unfold lift_fuel. step_monad.
    rewrite emit_writes. simpl.
    unfold run_trace.
    destruct (code =? 0)%Z; step_monad;
      repeat (rewrite <- ?app_assoc; simpl); reflexivity. }
  split; [exact Hcomm|].
  split; intros Hcode; rewrite Hrun.
  - apply Z.eqb_neq in Hcode. now rewrite Hcode.
  - subst code. simpl. now rewrite app_nil_r.
Qed.

End Exec.

(** C5 at a concrete call: [run('make test')] where [make] ends with
    status 2. *)
Lemma run_exit_status_witness :
  let docker := Sample.docker [b "FAILED" ++ [LF]] (Some 2%Z) in
  let host := Sample.host "/build" ∅ in
  let c := {| api.container_id := "dib-temp-0f8fad5b" |} in
  api.run (api.Shell "make test") None dockertools.default_kwargs
          (Sample.opened c)
  = (api.Raise (api.SystemExit 1),
     {| api.globals := api.globals (Sample.opened c);
        api.trace :=
          [ api.StdoutLine "RUN make test"; api.StdoutLine EmptyString;
            api.CallExec c ["bash"; "-c"; "make test"]
                         dockertools.default_kwargs None;
            api.StdoutWrite (b "    "); api.StdoutWrite (b "FAILED" ++ [LF]);
            api.StdoutLine EmptyString;
            api.StderrLine "ERROR exit code 2" ] |}).
Proof.
  intros docker host c.
  destruct (run_exit_status (api.Shell "make test") None
              dockertools.default_kwargs (Sample.opened c) c 2%Z)
    as (ws & Hcomm & Hfail & _); [reflexivity | reflexivity |].
  vm_compute in Hcomm. injection Hcomm as <-.
  rewrite Hfail by discriminate. reflexivity.
Defined.

(** ** Repository and tag *)

Section Commit.
Import api.
Context `{Docker} `{Host}.

Lemma prefix_same_char (c : ascii) (s : string) :
  String.prefix (chr c) (String c s) = true.
Proof.
  simpl. destruct (ascii_dec c c); [now destruct s | contradiction].
Qed.

(** A string without the separator comes back whole. *)
Lemma partition_absent (s : string) (sep : ascii) :
  PyStr.contains (chr sep) s = false ->
  PyStr.partition s sep = (s, EmptyString, EmptyString).
Proof.
  induction s as [|x s IH]; [reflexivity|].
  intros Hno. cbn [PyStr.contains] in Hno.
  apply orb_false_iff in Hno as [Hhead Htail].
  simpl. destruct (Ascii.eqb x sep) eqn:E.
  - apply Ascii.eqb_eq in E. subst x.
    rewrite prefix_same_char in Hhead. discriminate.
  - now rewrite IH.
Qed.

(** The split is at the first separator. *)
Lemma partition_first (name rest : string) (sep : ascii) :
  PyStr.contains (chr sep) name = false ->
  PyStr.partition (name +:+ String sep rest) sep = (name, chr sep, rest).
Proof.
  induction name as [|x name IH]; intros Hno.
  - simpl. now rewrite Ascii.eqb_refl.
  - cbn [PyStr.contains] in Hno.
    apply orb_false_iff in Hno as [Hhead Htail].
    simpl. destruct (Ascii.eqb x sep) eqn:E.
    + apply Ascii.eqb_eq in E. subst x.
      rewrite prefix_same_char in Hhead. discriminate.
    + now rewrite IH.
Qed.

(** C6: [commit] with a repository that has no colon and a non-empty [tag]
    argument does not hand the caller's tag to the daemon.  A non-empty
    repository goes out under its own name with the empty tag taken from
    the repository string; an empty one goes out as no repository and no
    tag.  No error is raised. *)
Theorem commit_drops_tag_argument
        (repo t : string) (author message : option string)
        (conf : option (gmap string string)) (w : World) (c : Container) :
  container (globals w) = Some c ->
  PyStr.contains ":" repo = false ->
  PyStr.truthy t = true ->
  exists args,
    commit (Some repo) (Some t) author message conf w
    = (Ok (container_commit c args),
       {| globals := globals w; trace := trace w ++ [CallCommit c args] |})
    /\ arg_tag args <> Some t
    /\ arg_tag args = (if PyStr.truthy repo then Some EmptyString else None)
    /\ arg_repository args = (if PyStr.truthy repo then Some repo else None).
Proof.
  intros Hc Hno Ht.
  assert (Htarget : commit_target (Some repo) (Some t)
    = Ok (if PyStr.truthy repo then Some repo else None,
          if PyStr.truthy repo then Some EmptyString else None)).
  { unfold commit_target. destruct (PyStr.truthy repo) eqn:Er; [|reflexivity].
    rewrite (partition_absent repo ":" Hno). simpl.
    rewrite ?Ht, ?andb_false_r. reflexivity. }
  eexists. unfold commit. step_monad. rewrite Hc, Htarget. step_monad.
  split; [reflexivity|]. simpl.
  split; [|split; reflexivity].
  destruct (PyStr.truthy repo); [|discriminate].
  intros [= <-]. discriminate.
Qed.

(** X5: for a non-empty [name] without a colon, [commit] of [name:tag]
    with no [tag] argument hands the daemon the repository [name] and the
    tag [tag]; with a non-empty [tag] in the string, a non-empty [tag]
    argument raises [ValueError]; and [:tag] with a non-empty [tag] raises
    [ValueError] whatever the [tag] argument. *)
Theorem commit_repository_with_tag
        (name tag t : string) (explicit author message : option string)
        (conf : option (gmap string string)) (w : World) (c : Container) :
  container (globals w) = Some c ->
  PyStr.truthy name = true ->
  PyStr.contains ":" name = false ->
  (let args :=
     {| arg_repository := Some name; arg_tag := Some tag;
        arg_message := message; arg_author := author;
        arg_changes := commit_changes (globals w); arg_conf := conf |} in
   commit (Some (name +:+ ":" +:+ tag)) None author message conf w
   = (Ok (container_commit c args),
      {| globals := globals w; trace := trace w ++ [CallCommit c args] |}))
  /\ (PyStr.truthy tag = true -> PyStr.truthy t = true ->
      commit (Some (name +:+ ":" +:+ tag)) (Some t) author message conf w
      = (Raise (ValueError "tag in repository and tag argument"), w))
  /\ (PyStr.truthy tag = true ->
      commit (Some (":" +:+ tag)) explicit author message conf w
      = (Raise (ValueError "tag without repository"), w)).
Proof.
  intros Hc Hname Hno.
  assert (Hne : PyStr.truthy (name +:+ ":" +:+ tag) = true)
    by (destruct name; [discriminate | reflexivity]).
  pose proof (partition_first name tag ":" Hno) as Hpart.
  change (name +:+ String ":" tag) with (name +:+ ":" +:+ tag) in Hpart.
  split; [|split].
  - unfold commit, commit_target. step_monad.
    rewrite Hc, Hne, Hpart. simpl. rewrite Hname.
    rewrite andb_false_r. reflexivity.
  - intros Htag Ht. unfold commit, commit_target. step_monad.
    rewrite Hc, Hne, Hpart. simpl. rewrite Hname, Htag, Ht.
    reflexivity.
  - intros Htag. change (":" +:+ tag) with (String ":" tag).
    unfold commit, commit_target. step_monad.
    rewrite Hc. simpl. rewrite Htag. reflexivity.
Qed.

End Commit.

(** C6 at a concrete call: [commit('myimage', tag='v2')]. *)
Lemma commit_drops_tag_argument_witness :
  let docker := Sample.docker [] (Some 0%Z) in
  let host := Sample.host "/build" ∅ in
  let c := {| api.container_id := "dib-temp-0f8fad5b" |} in
  exists args,
    api.commit (Some "myimage") (Some "v2") None None None (Sample.opened c)
    = (api.Ok (api.container_commit c args),
       {| api.globals := api.globals (Sample.opened c);
          api.trace := [api.CallCommit c args] |})
    /\ api.arg_tag args <> Some "v2"
    /\ api.arg_tag args = Some EmptyString
    /\ api.arg_repository args = Some "myimage".
Proof.
  intros docker host c.
  apply (commit_drops_tag_argument "myimage" "v2" None None None
           (Sample.opened c) c); reflexivity.
Defined.

(** X5 at concrete calls: [commit('myimage:v1')],
    [commit('myimage:v1', tag='v2')] and [commit(':v1')]. *)
Lemma commit_repository_with_tag_witness :
  let docker := Sample.docker [] (Some 0%Z) in
  let host := Sample.host "/build" ∅ in
  let c := {| api.container_id := "dib-temp-0f8fad5b" |} in
  let w := Sample.opened c in
  let args :=
    {| api.arg_repository := Some "myimage"; api.arg_tag := Some "v1";
       api.arg_message := None; api.arg_author := None;
       api.arg_changes := []; api.arg_conf := None |} in
  api.commit (Some "myimage:v1") None None None None w
  = (api.Ok (api.container_commit c args),
     {| api.globals := api.globals w; api.trace := [api.CallCommit c args] |})
  /\ api.commit (Some "myimage:v1") (Some "v2") None None None w
     = (api.Raise (api.ValueError "tag in repository and tag argument"), w)
  /\ api.commit (Some ":v1") None None None None w
     = (api.Raise (api.ValueError "tag without repository"), w).
Proof.
  intros docker host c w args.
  destruct (commit_repository_with_tag "myimage" "v1" "v2" None None None None
              w c) as (Hpass & Hboth & Hbare); [reflexivity..|].
  split; [exact Hpass|].
  split; [apply Hboth; reflexivity | apply Hbare; reflexivity].
Defined.

(** C4: [commit] is meant to take the repository name and the tag out of
    ['name:tag'].  For the repository [localhost:5000/app] and the tag
    [v1], written ['localhost:5000/app:v1'], it cuts at the first colon
    and hands the daemon the repository [localhost] and the tag
    [5000/app:v1]; giving the tag as the [tag] argument instead raises
    [ValueError], so neither form commits that repository under that
    tag. *)
Theorem commit_splits_at_first_colon :
  let docker := Sample.docker [] (Some 0%Z) in
  let host := Sample.host "/build" ∅ in
  let c := {| api.container_id := "dib-temp-0f8fad5b" |} in
  let name := "localhost:5000/app" in
  let tag := "v1" in
  (exists args,
     api.commit (Some (name +:+ ":" +:+ tag)) None None None None
                (Sample.opened c)
     = (api.Ok (api.container_commit c args),
        {| api.globals := api.globals (Sample.opened c);
           api.trace := [api.CallCommit c args] |})
     /\ api.arg_repository args = Some "localhost"
     /\ api.arg_tag args = Some "5000/app:v1"
     /\ (api.arg_repository args, api.arg_tag args) <> (Some name, Some tag))
  /\ api.commit (Some name) (Some tag) None None None (Sample.opened c)
     = (api.Raise (api.ValueError "tag in repository and tag argument"),
        Sample.opened c).
Proof.
  intros docker host c name tag. split; [|reflexivity].
  exists {| api.arg_repository := Some "localhost";
            api.arg_tag := Some "5000/app:v1";
            api.arg_message := None; api.arg_author := None;
            api.arg_changes := []; api.arg_conf := None |}.
  split; [reflexivity|]. simpl.
  split; [reflexivity|]. split; [reflexivity | discriminate].
Qed.

(** ** Buildtime volumes *)

Section Volumes.
Import api.
Context `{Docker} `{Host}.

(** C7, as the code has it: outside a session [buildtime_volume] stores
    the bind descriptor (container path and mode) under a key that is the
    host path made absolute with [path.abs] when the host path is relative
    and reads as a path (it starts with the current-directory name, so also
    with the parent-directory name, or holds a path separator), and the
    host path as given otherwise: when it is absolute, and when it is a
    bare name. *)
Theorem buildtime_volume_key
        (host_path container_path mode : string) (w : World) :
  container (globals w) = None ->
  let stored key :=
    (Ok tt,
     {| globals :=
          set_buildtime_volumes
            (<[key := {| bind := container_path; mode := mode |}]>
               (buildtime_volumes (globals w))) (globals w);
        trace := trace w |}) in
  (path_isabs host_path = true ->
   buildtime_volume host_path container_path mode w = stored host_path)
  /\ (path_isabs host_path = false ->
      PyStr.startswith host_path path_curdir = true
      \/ PyStr.startswith host_path path_pardir = true
      \/ PyStr.contains path_sep host_path = true
      \/ (os_name = "nt" /\ PyStr.contains "/" host_path = true) ->
      buildtime_volume host_path container_path mode w
      = stored (path_abs host_path))
  /\ (path_isabs host_path = false ->
      PyStr.startswith host_path path_curdir = false ->
      PyStr.startswith host_path path_pardir = false ->
      PyStr.contains path_sep host_path = false ->
      os_name <> "nt" \/ PyStr.contains "/" host_path = false ->
      buildtime_volume host_path container_path mode w = stored host_path).
Proof.
  intros Hc stored. subst stored.
  unfold buildtime_volume. step_monad. rewrite Hc. step_monad.
  split; [|split].
  - intros ->. reflexivity.
  - intros -> Hpath. simpl.
    assert (Hc' : PyStr.startswith host_path path_curdir
                  || PyStr.startswith host_path path_pardir
                  || (PyStr.contains path_sep host_path
                      || existsb (fun x => PyStr.contains x host_path)
                           (if String.eqb os_name "nt" then ["/"] else []))
                  = true).
    { destruct Hpath as [->| [->| [->| [Hnt Hslash]]]];
        [reflexivity | now rewrite orb_true_r | now rewrite !orb_true_r |].
      rewrite Hnt. simpl. rewrite Hslash. now rewrite !orb_true_r. }
    now rewrite Hc'.
  - intros -> -> -> -> Hnt. simpl.
    destruct (String.eqb_spec os_name "nt") as [Hnt' | _]; [|reflexivity].
    destruct Hnt as [Hnt | Hs]; [contradiction | simpl; now rewrite Hs].
Qed.

End Volumes.

(** C7 at concrete calls on a POSIX host with the working directory
    [/build]: [cache/pip] is stored as [/build/cache/pip], [/srv/data]
    as it is. *)
Lemma buildtime_volume_key_witness :
  let docker := Sample.docker [] (Some 0%Z) in
  let host := Sample.host "/build" ∅ in
  let stored key :=
    (api.Ok tt,
     {| api.globals :=
          api.set_buildtime_volumes
            {[ key := {| api.bind := "/mnt"; api.mode := "ro" |} ]}
            api.initial;
        api.trace := [] |}) in
  api.buildtime_volume "/srv/data" "/mnt" "ro" Sample.start
  = stored "/srv/data"
  /\ api.buildtime_volume "cache/pip" "/mnt" "ro" Sample.start
     = stored "/build/cache/pip".
Proof.
  intros docker host stored.
  destruct (buildtime_volume_key "/srv/data" "/mnt" "ro" Sample.start eq_refl)
    as (Habs & _ & _).
  destruct (buildtime_volume_key "cache/pip" "/mnt" "ro" Sample.start eq_refl)
    as (_ & Hrel & _).
  split.
  - apply Habs. reflexivity.
  - apply Hrel; [reflexivity|]. right. right. left. reflexivity.
Defined.

(** C7 as stated fails for a relative host path that is a bare name: on a
    POSIX host with the working directory [/build],
    [buildtime_volume('data', '/data')] stores the descriptor under [data],
    not under the absolute form [/build/data]. *)
Lemma buildtime_volume_keeps_bare_name :
  let docker := Sample.docker [] (Some 0%Z) in
  let host := Sample.host "/build" ∅ in
  api.path_isabs "data" = false
  /\ api.path_abs "data" = "/build/data"
  /\ exists w,
       api.buildtime_volume "data" "/data" "rw" Sample.start = (api.Ok tt, w)
       /\ api.buildtime_volumes (api.globals w) !! "data"
          = Some {| api.bind := "/data"; api.mode := "rw" |}
       /\ api.buildtime_volumes (api.globals w) !! "/build/data" = None.
Proof.
  intros docker host. split; [reflexivity|]. split; [reflexivity|].
  exists {| api.globals :=
              api.set_buildtime_volumes
                (<["data" := {| api.bind := "/data"; api.mode := "rw" |}]> ∅)
                api.initial;
            api.trace := [] |}.
  split; [reflexivity|]. simpl.
  split; [apply lookup_insert_eq|].
  rewrite lookup_insert_ne by discriminate. apply lookup_empty.
Qed.

(** ** Copying files in *)

Section Copy.
Import api CrlfSpec CopySpec.
Context `{Docker} `{Host}.

(** [replace(b'\r\n', b'\n')] leaves out the CR of every CRLF pair and
    changes nothing else. *)
Lemma replace_crlf (data : bytes) :
  PyBytes.replace data [CR; LF] [LF] = drop_cr_before_lf data.
Proof.
  unfold PyBytes.replace.
  induction data as [|x rest IH]; [reflexivity|].
  destruct rest as [|y rest'].
  - simpl. now rewrite andb_false_r.
  - change (drop_cr_before_lf (x :: y :: rest'))
      with (if Byte.eqb x CR && Byte.eqb y LF
            then drop_cr_before_lf (y :: rest')
            else x :: drop_cr_before_lf (y :: rest')).
    rewrite <- IH.
    change (PyBytes.replace_go [CR; LF] [LF] 0 (x :: y :: rest'))
      with (if Byte.eqb x CR && (Byte.eqb y LF && true)
            then [LF] ++ PyBytes.replace_go [CR; LF] [LF] 0 rest'
            else x :: PyBytes.replace_go [CR; LF] [LF] 0 (y :: rest')).
    rewrite andb_true_r.
    destruct (Byte.eqb x CR && Byte.eqb y LF) eqn:E; [|reflexivity].
    apply andb_true_iff in E as [_ Ey]. apply byte_dec_bl in Ey. subst y.
    reflexivity.
Qed.

Lemma head_drop_cr (y : byte) (rest : bytes) :
  head (drop_cr_before_lf (y :: rest)) = Some LF ->
  y = LF \/ (y = CR /\ head rest = Some LF).
Proof.
  destruct rest as [|z rest']; simpl.
  - intros [= ->]. now left.
  - destruct (Byte.eqb y CR && Byte.eqb z LF) eqn:E.
    + apply andb_true_iff in E as [Ey Ez].
      apply byte_dec_bl in Ey, Ez. subst. intros _. now right.
    + simpl. intros [= ->]. now left.
Qed.

(** Without a CR directly before a CRLF pair in the input, no CRLF pair is
    left in the output. *)
Lemma drop_cr_no_crlf (data : bytes) :
  has_cr_crlf data = false -> has_crlf (drop_cr_before_lf data) = false.
Proof.
  induction data as [|x rest IH]; [reflexivity|].
  destruct rest as [|y rest']; [reflexivity|].
  intros Hno.
  assert (Hrest : has_cr_crlf (y :: rest') = false).
  { destruct rest' as [|z rest'']; [reflexivity|].
    cbn [has_cr_crlf] in Hno. now apply orb_false_iff in Hno as [_ ?]. }
  specialize (IH Hrest).
  change (drop_cr_before_lf (x :: y :: rest'))
    with (if Byte.eqb x CR && Byte.eqb y LF
          then drop_cr_before_lf (y :: rest')
          else x :: drop_cr_before_lf (y :: rest')).
  destruct (Byte.eqb x CR && Byte.eqb y LF) eqn:E; [exact IH|].
  destruct (drop_cr_before_lf (y :: rest')) as [|h t] eqn:Ed; [reflexivity|].
  change (has_crlf (x :: h :: t))
    with ((Byte.eqb x CR && Byte.eqb h LF) || has_crlf (h :: t)).
  rewrite IH, orb_false_r.
  destruct (Byte.eqb x CR) eqn:Ex; [|reflexivity]. simpl.
  destruct (Byte.eqb h LF) eqn:Eh; [|reflexivity].
  apply byte_dec_bl in Ex, Eh. subst x h.
  destruct (head_drop_cr y rest') as [-> | [-> Hz]].
  { now rewrite Ed. }
  - simpl in E. discriminate.
  - destruct rest' as [|z rest'']; [discriminate|].
    simpl in Hz. injection Hz as ->. simpl in Hno. discriminate.
Qed.

(** C10, as the code has it: [copy] with [crlf_to_lf=True] on a regular
    file uploads one archive member whose content is the file's with the CR
    of every CRLF pair left out and nothing else changed; when no CR stands
    directly before a CRLF pair in the file, no CRLF pair is left in the
    member.  When the source is not a regular file, [copy] raises a
    [RuntimeError] and no upload is made. *)
Theorem copy_crlf_to_lf
        (src dst chmod : string) (w : World) (c : Container) :
  container (globals w) = Some c ->
  let content := drop_cr_before_lf (read_binary src) in
  let member :=
    {| tar_name := path_base src;
       tar_mode := path_chmod_update (os_stat_st_mode src) chmod;
       tar_size := length content;
       tar_content := content |} in
  let dst' := target (globals w) dst in
  (path_isfile src = true ->
   copy src dst true chmod w
   = (if container_put_archive c dst' [member] then Ok tt
      else Raise (RuntimeError "put_archive() failed"),
      {| globals := globals w;
         trace := trace w ++ announce (globals w) dst
                  ++ [CallPutArchive c dst' [member]] |})
   /\ (has_cr_crlf (read_binary src) = false -> has_crlf content = false))
  /\ (path_isfile src = false ->
      copy src dst true chmod w
      = (Raise (RuntimeError
                  ("crlf_to_lf=True, but " +:+ chr dquote +:+ src
                     +:+ chr dquote +:+ " is not a file")),
         {| globals := globals w;
            trace := trace w ++ announce (globals w) dst |})
      /\ forallb (fun e => negb (is_upload e)) (announce (globals w) dst)
         = true).
Proof.
  intros Hc content member dst'. subst content member dst'.
  destruct w as [g tr]. simpl in Hc. simpl globals. simpl trace.
  split.
  - intros Hfile. split; [|apply drop_cr_no_crlf].
    unfold copy. rewrite replace_crlf, Hfile. unfold announce. unfold target.
    step_monad. rewrite Hc.
    destruct (_workdir g) as [[|ch wd]|]; step_monad;
      rewrite ?app_nil_r;
      destruct (container_put_archive c _ _); step_monad;
      repeat (rewrite <- app_assoc; simpl); reflexivity.
  - intros Hfile. split.
    + unfold copy. rewrite Hfile. unfold announce. unfold target.
      step_monad.
      destruct (_workdir g) as [[|ch wd]|]; step_monad;
        rewrite ?app_nil_r; repeat (rewrite <- app_assoc; simpl);
        reflexivity.
    + unfold announce. now destruct (_workdir g) as [[|ch wd]|].
Qed.

End Copy.

(** C10 at concrete calls on a host with the file [notes.txt] holding
    ['one\r\ntwo\nthree\r\n'] and no file [docs]. *)
Lemma copy_crlf_to_lf_witness :
  let content := b "one" ++ [CR; LF] ++ b "two" ++ [LF] ++ b "three" ++ [CR; LF] in
  let docker := Sample.docker [] (Some 0%Z) in
  let host := Sample.host "/build" {[ "notes.txt" := content ]} in
  let c := {| api.container_id := "dib-temp-0f8fad5b" |} in
  let member :=
    {| api.tar_name := "notes.txt"; api.tar_mode := 33188%Z;
       api.tar_size := 14;
       api.tar_content := b "one" ++ [LF] ++ b "two" ++ [LF] ++ b "three" ++ [LF] |} in
  api.copy "notes.txt" "/app" true EmptyString (Sample.opened c)
  = (api.Ok tt,
     {| api.globals := api.globals (Sample.opened c);
        api.trace := [api.CallPutArchive c "/app" [member]] |})
  /\ CrlfSpec.has_crlf (api.tar_content member) = false
  /\ api.copy "docs" "/app" true EmptyString (Sample.opened c)
     = (api.Raise (api.RuntimeError
          ("crlf_to_lf=True, but " +:+ chr dquote +:+ "docs" +:+ chr dquote
             +:+ " is not a file")),
        Sample.opened c).
Proof.
  intros content docker host c member.
  destruct (copy_crlf_to_lf "notes.txt" "/app" EmptyString (Sample.opened c) c
              eq_refl) as (Hfile & _).
  destruct (copy_crlf_to_lf "docs" "/app" EmptyString (Sample.opened c) c
              eq_refl) as (_ & Hdir).
  destruct Hfile as (Hcopy & Hlf); [reflexivity|].
  destruct Hdir as (Hraise & _); [reflexivity|].
  split; [rewrite Hcopy; reflexivity|].
  split; [reflexivity | rewrite Hraise; reflexivity].
Defined.

(** C10 as stated fails for a file in which a CR stands before a CRLF
    pair: of ['a\r\r\nb\n'] the uploaded member is ['a\r\nb\n'], whose first
    line ends in CRLF. *)
Lemma copy_leaves_crlf_after_cr :
  let content := b "a" ++ [CR; CR; LF] ++ b "b" ++ [LF] in
  let docker := Sample.docker [] (Some 0%Z) in
  let host := Sample.host "/build" {[ "notes.txt" := content ]} in
  let c := {| api.container_id := "dib-temp-0f8fad5b" |} in
  let member :=
    {| api.tar_name := "notes.txt"; api.tar_mode := 33188%Z;
       api.tar_size := 5;
       api.tar_content := b "a" ++ [CR; LF] ++ b "b" ++ [LF] |} in
  api.path_isfile "notes.txt" = true
  /\ api.read_binary "notes.txt" = content
  /\ api.copy "notes.txt" "/app" true EmptyString (Sample.opened c)
     = (api.Ok tt,
        {| api.globals := api.globals (Sample.opened c);
           api.trace := [api.CallPutArchive c "/app" [member]] |})
  /\ CrlfSpec.has_crlf (api.tar_content member) = true.
Proof.
  intros content docker host c member.
  repeat split; reflexivity.
Qed.

(** ** Leaving the build context *)

Section Cleanup.
Import api.
Context `{Docker} `{Host}.

(** The [finally] block of [new], when stopping the container either works
    or fails with an [APIError]: the container handle, the working
    directory, the command, the entrypoint, the user and the exposed ports
    are reset; the declared volumes and the buildtime volumes stay. *)
Lemma new_finally_resets (w : World) :
  match container (globals w) with
  | Some c =>
      match container_kill c with
      | Ok _ | Raise (APIError _) => True
      | Raise _ => False
      end
  | None => True
  end ->
  new_finally w
  = (Ok tt,
     {| globals :=
          {| container := None;
             buildtime_volumes := buildtime_volumes (globals w);
             _workdir := None; _cmd := None; _entrypoint := None;
             _user := None; _expose := [];
             _volumes := _volumes (globals w) |};
        trace := trace w ++ match container (globals w) with
                            | Some c => [CallKill c]
                            | None => []
                            end |}).
Proof.
  destruct w as [g tr]. simpl. intros Hkill.
  unfold new_finally, except_APIError. step_monad.
  destruct (container g) as [c|]; step_monad.
  - destruct (container_kill c) as [[]|[]]; try contradiction; reflexivity.
  - now rewrite app_nil_r.
Qed.

(** An exception raised inside the build context, [SystemExit] included,
    comes out of [new] after the cleanup. *)
Lemma new_lets_exception_through
      {A} (image : string) (command : list string)
      (volumes : option (gmap string Bind)) (body : M A)
      (w w2 : World) (c : Container) (e : exn) :
  container (globals w) = None ->
  let vols :=
    merge_dictionary (buildtime_volumes (globals w)) (default ∅ volumes) in
  let name := "dib-temp-" +:+ String.substring 0 8 uuid4 in
  containers_run image command name vols = Ok c ->
  body {| globals := set_container (Some c) (globals w);
          trace := trace w ++ [CallRun image command name vols] |}
  = (Raise e, w2) ->
  container (globals w2) = Some c ->
  container_kill c = Ok tt ->
  (new image command volumes body w).1 = Raise e
  /\ container (globals (new image command volumes body w).2) = None.
Proof.
  intros Hc vols name Hrun Hbody Hc2 Hkill. subst vols name.
  unfold new, try_finally. step_monad. rewrite Hc. step_monad.
  rewrite Hrun. step_monad. rewrite Hbody.
  rewrite new_finally_resets by (rewrite Hc2, Hkill; exact I).
  split; reflexivity.
Qed.

End Cleanup.

(** C3: leaving the build context is meant to reset every declared field.
    After a first session that declares a working directory, a port and the
    volume [/data], the working directory and the ports are reset but the
    volume list still holds [/data], and a [commit] in a second session
    with nothing declared hands the daemon the changes [VOLUME /data]. *)
Theorem new_exit_keeps_declared_volumes :
  let docker := Sample.docker [] (Some 0%Z) in
  let host := Sample.host "/build" ∅ in
  let c := {| api.container_id := "dib-temp-0f8fad5b" |} in
  let first :=
    api.new "alpine" api.default_command None
      (api.workdir "/app";; api.expose "80";; api.volume "/data") in
  let second :=
    api.new "alpine" api.default_command None
      (api.commit None None None None None) in
  let w1 := (first Sample.start).2 in
  let args :=
    {| api.arg_repository := None; api.arg_tag := None;
       api.arg_message := None; api.arg_author := None;
       api.arg_changes := ["VOLUME /data"]; api.arg_conf := None |} in
  (first Sample.start).1 = api.Ok tt
  /\ api.container (api.globals w1) = None
  /\ api._workdir (api.globals w1) = None
  /\ api._expose (api.globals w1) = []
  /\ api._volumes (api.globals w1) = ["/data"]
  /\ second w1
     = (api.Ok (api.container_commit c args),
        {| api.globals := api.globals w1;
           api.trace :=
             api.trace w1
             ++ [ api.CallRun "alpine" api.default_command
                              "dib-temp-0f8fad5b" ∅;
                  api.CallCommit c args;
                  api.CallKill c ] |}).
Proof.
  repeat split; reflexivity.
Qed.

(** * Further properties of the code *)

(** ** What the drain writes, write by write *)

Section DrainWrites.
Import PyBytes dockertools DrainSpec DrainShape.

Lemma forallb_not_lf (l : bytes) :
  Forall (fun x => x <> LF) l ->
  forallb (fun x => negb (Byte.eqb x LF)) l = true.
Proof.
  induction 1 as [|x l Hx _ IH]; [reflexivity|].
  simpl. rewrite IH, andb_true_r.
  destruct (Byte.eqb x LF) eqn:E; [|reflexivity].
  apply byte_dec_bl in E. contradiction.
Qed.

Lemma is_slice_terminated (seg : bytes) :
  Forall (fun x => x <> LF) seg -> is_slice (seg ++ [LF]) = true.
Proof.
  intros Hseg. unfold is_slice.
  destruct (seg ++ [LF]) as [|x l] eqn:E.
  - now destruct seg.
  - rewrite <- E, removelast_last. now apply forallb_not_lf.
Qed.

Lemma is_slice_unterminated (l : bytes) :
  l <> [] -> Forall (fun x => x <> LF) l -> is_slice l = true.
Proof.
  intros Hne Hl. unfold is_slice. destruct l as [|x l'] eqn:E; [contradiction|].
  rewrite <- E in *. apply forallb_not_lf.
  rewrite (app_removelast_last x Hne) in Hl.
  now apply Forall_app in Hl as [? _].
Qed.

(** The inner loop writes the prefix and a slice in turn, and the slices
    are the rest of the chunk cut after every newline. *)
Lemma write_chunk_slices p data fuel offset :
  length data - offset <= fuel ->
  exists slices, write_chunk fuel p data offset = Some (interleave p slices)
                 /\ concat slices = drop offset data
                 /\ forallb is_slice slices = true.
Proof.
  revert offset. induction fuel as [|fuel IH]; intros offset Hfuel.
  - exists []. simpl.
    destruct (offset <? length data) eqn:E.
    + apply Nat.ltb_lt in E. lia.
    + apply Nat.ltb_ge in E. now rewrite drop_ge.
  - simpl. destruct (offset <? length data) eqn:E.
    2:{ exists []. apply Nat.ltb_ge in E. now rewrite drop_ge. }
    apply Nat.ltb_lt in E.
    unfold find, slice, slice_from.
    set (l := drop offset data).
    assert (Hl : length l = length data - offset) by apply length_drop.
    destruct (find_in LF l offset) as [nl|] eqn:F.
    + destruct (find_in_Some _ _ _ _ F) as (k & -> & Hk & Hseg).
      pose proof (lookup_lt_Some _ _ _ Hk) as Hlt.
      destruct (IH (offset + k + 1)) as (rest & -> & Hcat & Hok); [lia|].
      replace (offset + k + 1 - offset) with (S k) by lia.
      exists (take (S k) l :: rest). split; [reflexivity|]. split.
      * simpl. rewrite Hcat.
        replace (drop (offset + k + 1) data) with (drop (S k) l)
          by (unfold l; rewrite drop_drop; f_equal; lia).
        apply take_drop.
      * simpl. rewrite Hok, andb_true_r.
        rewrite (take_S_r l k LF Hk). now apply is_slice_terminated.
    + pose proof (find_in_None _ _ _ F) as Hall.
      destruct (IH (offset + length l)) as (rest & Hw & Hcat & Hok); [lia|].
      rewrite Hw. rewrite (drop_ge data) in Hcat by lia.
      exists (l :: rest). split; [reflexivity|]. split.
      * simpl. rewrite Hcat. apply app_nil_r.
      * simpl. rewrite Hok, andb_true_r.
        apply is_slice_unterminated; [|assumption].
        intros Hnil. rewrite Hnil in Hl. simpl in Hl. lia.
Qed.

Lemma write_output_slices p chunks :
  exists slices, write_output p chunks = Some (interleave p slices)
                 /\ concat slices = concat chunks
                 /\ forallb is_slice slices = true.
Proof.
  induction chunks as [|data more (rest & Hrest & Hcat & Hok)].
  - now exists [].
  - destruct data as [|x data'] eqn:Ed.
    + exists rest. repeat split; assumption.
    + rewrite <- Ed.
      destruct (write_chunk_slices p data (length data) 0)
        as (here & Hw & Hhere & Hok'); [lia|].
      exists (here ++ rest). split; [|split].
      * rewrite Ed in *. simpl. simpl in Hw. rewrite Hw. simpl.
        rewrite Hrest. unfold interleave. now rewrite flat_map_app.
      * rewrite concat_app, Hhere, Hcat. reflexivity.
      * rewrite forallb_app, Hok, Hok'. reflexivity.
Qed.

Lemma written_interleave_nil slices :
  written (interleave [] slices) = concat slices.
Proof.
  unfold written, interleave.
  induction slices as [|l slices IH]; [reflexivity|].
  simpl. now rewrite IH.
Qed.

(** X1: [communicate] always gets to the end of the output stream, and
    what it writes is, in turn, the line prefix and a slice of the output:
    every slice is non-empty and has no newline before its last byte, and
    the slices one after the other are the chunks of the stream one after
    the other. *)
Theorem communicate_writes_prefix_and_slice
        `{APIClient} (self : ContainerExec) (line_prefix : bytes) :
  exists slices,
    communicate self line_prefix
    = Some (interleave line_prefix slices, status self)
    /\ concat slices = concat (output self)
    /\ forallb is_slice slices = true.
Proof.
  destruct (write_output_slices line_prefix (output self))
    as (slices & Hw & Hcat & Hok).
  exists slices. unfold communicate. rewrite Hw. now repeat split.
Qed.

(** X2: with the default, empty line prefix [communicate] passes the
    output through: the bytes written are the bytes of the stream. *)
Theorem communicate_without_prefix_is_identity
        `{APIClient} (self : ContainerExec) :
  exists ws,
    communicate self [] = Some (ws, status self)
    /\ written ws = concat (output self).
Proof.
  destruct (write_output_slices [] (output self))
    as (slices & Hw & Hcat & _).
  exists (interleave [] slices). unfold communicate. rewrite Hw.
  split; [reflexivity|]. now rewrite written_interleave_nil.
Qed.

(** X3: the prefix is written once at the head of every non-empty chunk
    and once after every newline that is not the last byte of its chunk:
    the bytes written are the chunks, each with the prefix before each of
    its own lines, one after the other. *)
Theorem communicate_prefixes_chunk_by_chunk
        `{APIClient} (self : ContainerExec) (line_prefix : bytes) :
  exists ws,
    communicate self line_prefix = Some (ws, status self)
    /\ written ws = concat (map (prefix_lines line_prefix) (output self)).
Proof.
  destruct (write_output_spec line_prefix (output self)) as (ws & Hw & Hcat).
  exists ws. unfold communicate. rewrite Hw. simpl.
  split; [reflexivity | exact Hcat].
Qed.

(** X4: when every chunk but the last is empty or ends with a newline, the
    bytes written are the whole stream with the prefix once before every
    line, a last line without newline included. *)
Theorem communicate_on_whole_line_chunks
        `{APIClient} (self : ContainerExec) (line_prefix : bytes)
        (chunks : list bytes) (final : bytes) :
  output self = chunks ++ [final] ->
  Forall whole_lines chunks ->
  exists ws,
    communicate self line_prefix = Some (ws, status self)
    /\ written ws = prefix_lines line_prefix (concat (output self)).
Proof.
  intros Hout Hwhole.
  destruct (write_output_spec line_prefix (output self)) as (ws & Hw & Hcat).
  exists ws. unfold communicate. rewrite Hw. simpl.
  split; [reflexivity|].
  rewrite Hcat, Hout. now apply prefix_lines_chunks.
Qed.

End DrainWrites.

(** X4 at a concrete stream: two whole lines in one chunk, an empty chunk,
    a third line with its newline in the same chunk, and a last line with
    no newline. *)
Lemma communicate_on_whole_line_chunks_witness :
  let chunks := [b "one" ++ [LF] ++ b "two" ++ [LF]; []; b "three" ++ [LF]] in
  let client := Sample.client (chunks ++ [b "four"]) (Some 0%Z) in
  let self :=
    dockertools.container_exec "c1" ["cat"; "f"] dockertools.default_kwargs
                               true None in
  exists ws,
    dockertools.communicate self (b "> ")
    = Some (ws, dockertools.Returned 0)
    /\ dockertools.written ws
       = b "> one" ++ [LF] ++ b "> two" ++ [LF] ++ b "> three" ++ [LF]
           ++ b "> four".
Proof.
  intros chunks client self.
  destruct (communicate_on_whole_line_chunks self (b "> ") chunks (b "four"))
    as (ws & Hc & Hw).
  - reflexivity.
  - repeat constructor.
  - exists ws. split; [exact Hc | exact Hw].
Defined.

(** ** [run], from the call to its end *)

Section RunMore.
Import api SessionSpec DrainShape.
Context `{Docker} `{Host}.

Lemma emit_all_writes (ws : list bytes) (w : World) :
  foldr (fun x k => emit (StdoutWrite x);; k) (mret tt) ws w
  = (Ok tt, {| globals := globals w;
               trace := trace w ++ map StdoutWrite ws |}).
Proof.
  revert w. induction ws as [|x ws IH]; intros [g tr]; step_monad.
  - now rewrite app_nil_r.
  - rewrite IH. simpl. now rewrite <- app_assoc.
Qed.

(** [run] inside a session, whole: the result and the trace for each
    outcome of the drain. *)
Lemma run_in_session
      (cmd : command) (workdir_kw : option (option string))
      (kwargs : dockertools.ExecKwargs) (w : World) (c : Container) :
  container (globals w) = Some c ->
  let workdir := run_workdir (globals w) workdir_kw in
  let self :=
    dockertools.container_exec (container_id c) (argv_of cmd) kwargs true
                               workdir in
  exists slices,
    concat slices = concat (dockertools.output self)
    /\ run cmd workdir_kw kwargs w
       = ((run_ending (dockertools.status self)).1,
          {| globals := globals w;
             trace := trace w ++ run_call c cmd workdir kwargs
                      ++ map StdoutWrite (interleave (b "    ") slices)
                      ++ (run_ending (dockertools.status self)).2 |}).
Proof.
  intros Hc workdir self.
  destruct (write_output_slices (b "    ") (dockertools.output self))
    as (slices & Hw & Hcat & _).
  exists slices. split; [exact Hcat|].
  unfold run. step_monad. rewrite Hc. step_monad.
  fold workdir. fold self.
  unfold dockertools.communicate. rewrite Hw.
  unfold lift_fuel. step_monad.
  rewrite emit_all_writes. simpl.
  unfold run_call, run_ending.
  destruct (dockertools.status self) as [res|]; step_monad.
  - destruct (res =? 0)%Z; step_monad;
      repeat (rewrite <- ?app_assoc; simpl); reflexivity.
  - repeat (rewrite <- ?app_assoc; simpl). now rewrite app_nil_r.
Qed.

(** X6: when the daemon reports no exit code once the stream has ended,
    [run] raises [RuntimeError('Hm could that really happen?')] after it
    has written the output; it prints neither the closing blank line nor
    anything on standard error. *)
Theorem run_without_exit_code
        (cmd : command) (workdir_kw : option (option string))
        (kwargs : dockertools.ExecKwargs) (w : World) (c : Container) :
  container (globals w) = Some c ->
  dockertools.poll
    (dockertools.container_exec (container_id c) (argv_of cmd) kwargs true
       (run_workdir (globals w) workdir_kw)) = None ->
  exists slices,
    concat slices
    = concat (dockertools.output
                (dockertools.container_exec (container_id c) (argv_of cmd)
                   kwargs true (run_workdir (globals w) workdir_kw)))
    /\ run cmd workdir_kw kwargs w
       = (Raise (RuntimeError "Hm could that really happen?"),
          {| globals := globals w;
             trace := trace w
                      ++ run_call c cmd (run_workdir (globals w) workdir_kw)
                           kwargs
                      ++ map StdoutWrite (interleave (b "    ") slices) |}).
Proof.
  intros Hc Hpoll.
  destruct (run_in_session cmd workdir_kw kwargs w c Hc)
    as (slices & Hcat & Hrun).
  exists slices. split; [exact Hcat|].
  rewrite Hrun. unfold dockertools.status. rewrite Hpoll. simpl.
  now rewrite app_nil_r.
Qed.

(** X7: a command run after [workdir(path)] with a non-empty [path] and no
    [workdir] keyword is executed in [path]; with the keyword, in the
    directory the keyword names. *)
Theorem run_after_workdir
        (path : string) (cmd : command)
        (workdir_kw : option (option string))
        (kwargs : dockertools.ExecKwargs) (w : World) (c : Container) :
  container (globals w) = Some c ->
  PyStr.truthy path = true ->
  exists r tr,
    (workdir path;; run cmd workdir_kw kwargs) w
    = (r, {| globals := set_workdir (Some path) (globals w);
             trace := trace w
                      ++ [StdoutLine ("WORKDIR " +:+ shlex.quote path)]
                      ++ run_call c cmd
                           (match workdir_kw with
                            | Some given => given
                            | None => Some path
                            end) kwargs
                      ++ tr |}).
Proof.
  intros Hc Hpath.
  set (w1 := {| globals := set_workdir (Some path) (globals w);
                trace := trace w
                  ++ [StdoutLine ("WORKDIR " +:+ shlex.quote path)] |}).
  assert (Hwd : workdir path w = (Ok tt, w1)).
  { unfold workdir. step_monad. now rewrite Hc. }
  destruct (run_in_session cmd workdir_kw kwargs w1 c) as (slices & _ & Hrun).
  { simpl. exact Hc. }
  assert (Hdir : run_workdir (globals w1) workdir_kw
                 = match workdir_kw with
                   | Some given => given
                   | None => Some path
                   end).
  { unfold run_workdir. destruct workdir_kw; [reflexivity|].
    simpl. now rewrite Hpath. }
  rewrite Hdir in Hrun.
  eexists. eexists.
  unfold mbind, M_bind at 1. rewrite Hwd, Hrun. simpl.
  rewrite <- !app_assoc. reflexivity.
Qed.

End RunMore.

(** X6 at a concrete call: [run('make')] against a daemon that reports no
    exit code. *)
Lemma run_without_exit_code_witness :
  let docker := Sample.docker [b "ok" ++ [LF]] None in
  let host := Sample.host "/build" ∅ in
  let c := {| api.container_id := "dib-temp-0f8fad5b" |} in
  exists slices,
    concat slices = b "ok" ++ [LF]
    /\ api.run (api.Shell "make") None dockertools.default_kwargs
               (Sample.opened c)
       = (api.Raise (api.RuntimeError "Hm could that really happen?"),
          {| api.globals := api.globals (Sample.opened c);
             api.trace :=
               [ api.StdoutLine "RUN make"; api.StdoutLine EmptyString;
                 api.CallExec c ["bash"; "-c"; "make"]
                              dockertools.default_kwargs None ]
               ++ map api.StdoutWrite
                      (DrainShape.interleave (b "    ") slices) |}).
Proof.
  intros docker host c.
  destruct (run_without_exit_code (api.Shell "make") None
              dockertools.default_kwargs (Sample.opened c) c)
    as (slices & Hcat & Hrun); [reflexivity | reflexivity |].
  exists slices. split; [exact Hcat | exact Hrun].
Defined.

(** X7 at a concrete call: [workdir('/app')] then [run('make')]. *)
Lemma run_after_workdir_witness :
  let docker := Sample.docker [] (Some 0%Z) in
  let host := Sample.host "/build" ∅ in
  let c := {| api.container_id := "dib-temp-0f8fad5b" |} in
  exists r tr,
    (api.workdir "/app";;
     api.run (api.Shell "make") None dockertools.default_kwargs)
      (Sample.opened c)
    = (r, {| api.globals :=
               api.set_workdir (Some "/app") (api.globals (Sample.opened c));
             api.trace :=
               [ api.StdoutLine "WORKDIR /app"; api.StdoutLine "RUN make";
                 api.StdoutLine EmptyString;
                 api.CallExec c ["bash"; "-c"; "make"]
                              dockertools.default_kwargs (Some "/app") ]
               ++ tr |}).
Proof.
  intros docker host c.
  destruct (run_after_workdir "/app" (api.Shell "make") None
              dockertools.default_kwargs (Sample.opened c) c)
    as (r & tr & Hrun); [reflexivity | reflexivity |].
  exists r, tr. exact Hrun.
Defined.

(** ** The package manager helpers *)

Section Packages.
Import api SessionSpec DrainShape.
Context `{Docker} `{Host}.

(** X8: outside a session every helper of [apt] and [apk] raises
    [RuntimeError('no current container')] and does nothing else. *)
Theorem package_helpers_need_session
        (packages : list string) (yes : bool) (w : World) :
  container (globals w) = None ->
  let refused := (Raise (RuntimeError "no current container"), w) in
  apt.clean w = refused /\ apt.update w = refused
  /\ apt.install packages yes w = refused
  /\ apk.clean w = refused /\ apk.update w = refused
  /\ apk.add packages w = refused.
Proof.
  intros Hc refused. subst refused.
  unfold apt.clean, apt.update, apt.install, apk.clean, apk.update, apk.add,
    run.
  step_monad. rewrite Hc. repeat split; reflexivity.
Qed.

(** X9: inside a session [apt.install] makes one exec call, of
    [apt-get install], then [-y] unless [yes] is false, then the packages
    in the order given, run without a shell in the declared working
    directory; when that command ends with a status other than 0 the
    helper raises [SystemExit(1)] after the error line, and when it ends
    with 0 the helper returns. *)
Theorem apt_install_command
        (packages : list string) (yes : bool) (w : World) (c : Container)
        (code : Z) :
  container (globals w) = Some c ->
  let argv :=
    ["apt-get"; "install"] ++ (if yes then ["-y"] else []) ++ packages in
  let workdir := run_workdir (globals w) None in
  dockertools.poll
    (dockertools.container_exec (container_id c) argv
       dockertools.default_kwargs true workdir) = Some code ->
  exists slices,
    apt.install packages yes w
    = (if (code =? 0)%Z then Ok tt else Raise (SystemExit 1),
       {| globals := globals w;
          trace := trace w
                   ++ [ StdoutLine
                          ("RUN " +:+ PyStr.join " " (map shlex.quote argv));
                        StdoutLine EmptyString;
                        CallExec c argv dockertools.default_kwargs workdir ]
                   ++ map StdoutWrite (interleave (b "    ") slices)
                   ++ [StdoutLine EmptyString]
                   ++ (if (code =? 0)%Z then []
                       else [StderrLine ("ERROR exit code "
                                         +:+ PyStr.repr_int code)]) |}).
Proof.
  intros Hc argv workdir Hpoll.
  assert (Hargv : (if yes then ["apt-get"; "install"] ++ ["-y"]
                   else ["apt-get"; "install"]) ++ packages = argv).
  { subst argv. now destruct yes. }
  unfold apt.install. rewrite Hargv.
  destruct (run_in_session (Argv argv) None dockertools.default_kwargs w c Hc)
    as (slices & _ & Hrun).
  exists slices. rewrite Hrun.
  change (argv_of (Argv argv)) with argv in *. fold workdir.
  unfold dockertools.status. fold workdir in Hpoll. rewrite Hpoll.
  unfold run_ending, run_call. simpl.
  destruct (code =? 0)%Z; reflexivity.
Qed.

End Packages.

(** X8 at a concrete state: right after import. *)
Lemma package_helpers_need_session_witness :
  let docker := Sample.docker [] (Some 0%Z) in
  let host := Sample.host "/build" ∅ in
  let refused :=
    (api.Raise (api.RuntimeError "no current container"), Sample.start) in
  api.apt.clean Sample.start = refused
  /\ api.apt.update Sample.start = refused
  /\ api.apt.install ["curl"] true Sample.start = refused
  /\ api.apk.clean Sample.start = refused
  /\ api.apk.update Sample.start = refused
  /\ api.apk.add ["curl"] Sample.start = refused.
Proof.
  intros docker host refused.
  apply (package_helpers_need_session ["curl"] true Sample.start).
  reflexivity.
Defined.

(** X9 at a concrete call: [apt.install('curl', 'git')] where [apt-get]
    ends with status 100. *)
Lemma apt_install_command_witness :
  let docker := Sample.docker [b "E: failed" ++ [LF]] (Some 100%Z) in
  let host := Sample.host "/build" ∅ in
  let c := {| api.container_id := "dib-temp-0f8fad5b" |} in
  let argv := ["apt-get"; "install"; "-y"; "curl"; "git"] in
  exists slices,
    api.apt.install ["curl"; "git"] true (Sample.opened c)
    = (api.Raise (api.SystemExit 1),
       {| api.globals := api.globals (Sample.opened c);
          api.trace :=
            [ api.StdoutLine "RUN apt-get install -y curl git";
              api.StdoutLine EmptyString;
              api.CallExec c argv dockertools.default_kwargs None ]
            ++ map api.StdoutWrite (DrainShape.interleave (b "    ") slices)
            ++ [ api.StdoutLine EmptyString;
                 api.StderrLine "ERROR exit code 100" ] |}).
Proof.
  intros docker host c argv.
  destruct (apt_install_command ["curl"; "git"] true (Sample.opened c) c
              100%Z) as (slices & Hrun); [reflexivity | reflexivity |].
  exists slices. exact Hrun.
Defined.

(** ** Metadata calls and the build context, whole *)

Section SessionMore.
Import api Script SessionSpec.
Context `{Docker} `{Host}.

Lemma step_exact (m : mutation) (w : World) (c : Container) :
  container (globals w) = Some c ->
  step m w = (Ok tt, {| globals := after [m] (globals w);
                        trace := trace w ++ workdir_lines [m] |}).
Proof.
  destruct w as [g tr0]. simpl. intros Hc.
  destruct m as [p|cm|cm|name [[|ch grp]|]|decl|decl]; simpl;
    unfold workdir, cmd, entrypoint, user, expose, volume;
    step_monad; rewrite Hc; step_monad;
    destruct g; unfold after, declared, workdir_lines; simpl in *;
    rewrite ?app_nil_r; reflexivity.
Qed.

Lemma workdir_lines_cons (m : mutation) (ms : list mutation) :
  workdir_lines (m :: ms) = workdir_lines [m] ++ workdir_lines ms.
Proof. unfold workdir_lines. now destruct m. Qed.

(** A script inside a session, whole. *)
Lemma steps_exact (ms : list mutation) (w : World) (c : Container) :
  container (globals w) = Some c ->
  steps ms w = (Ok tt, {| globals := after ms (globals w);
                          trace := trace w ++ workdir_lines ms |}).
Proof.
  revert w. induction ms as [|m ms IH]; intros w Hc.
  - destruct w as [g tr0]. simpl. unfold workdir_lines. simpl.
    now rewrite after_nil, app_nil_r.
  - simpl. unfold mbind, M_bind at 1. rewrite (step_exact m w c Hc).
    cbv beta iota. rewrite IH by exact Hc. simpl.
    now rewrite after_cons, (workdir_lines_cons m ms), app_assoc.
Qed.

(** X10: the metadata functions never call the daemon.  A script of them
    inside a session always runs through; it leaves the container handle
    and the buildtime volumes as they were, gives each scalar field the
    value of the last call that set it, appends the ports and volumes in
    the order declared, and prints one [WORKDIR] line per [workdir] call
    and nothing else. *)
Theorem metadata_calls_only_print
        (ms : list mutation) (w : World) (c : Container) :
  container (globals w) = Some c ->
  steps ms w = (Ok tt, {| globals := after ms (globals w);
                          trace := trace w ++ workdir_lines ms |})
  /\ forallb (fun e => negb (is_remote e)) (workdir_lines ms) = true
  /\ container (after ms (globals w)) = Some c
  /\ buildtime_volumes (after ms (globals w)) = buildtime_volumes (globals w).
Proof.
  intros Hc. split; [|split; [|split; [exact Hc | reflexivity]]].
  - now apply steps_exact with c.
  - unfold workdir_lines. induction (omap workdir_of ms); [reflexivity|].
    exact IHl.
Qed.

(** The [finally] block when stopping the container is harmless. *)
Lemma new_finally_closed (w : World) :
  match container (globals w) with
  | Some c => kill_swallowed (container_kill c) = true
  | None => True
  end ->
  new_finally w
  = (Ok tt, {| globals := closed (globals w);
               trace := trace w ++ kill_events (globals w) |}).
Proof.
  destruct w as [g tr]. simpl. intros Hkill.
  unfold new_finally, except_APIError, kill_events, closed. step_monad.
  destruct (container g) as [c|]; step_monad.
  - destruct (container_kill c) as [[]|[]]; try discriminate; reflexivity.
  - now rewrite app_nil_r.
Qed.

(** [new] around a body, when the container starts and stopping it is
    harmless. *)
Lemma new_around_body
      {A} (image : string) (command : list string)
      (volumes : option (gmap string Bind)) (body : M A)
      (w w2 : World) (c : Container) (r : result A) :
  container (globals w) = None ->
  let vols :=
    merge_dictionary (buildtime_volumes (globals w)) (default ∅ volumes) in
  let name := "dib-temp-" +:+ String.substring 0 8 uuid4 in
  containers_run image command name vols = Ok c ->
  body {| globals := set_container (Some c) (globals w);
          trace := trace w ++ [CallRun image command name vols] |}
  = (r, w2) ->
  match container (globals w2) with
  | Some c' => kill_swallowed (container_kill c') = true
  | None => True
  end ->
  new image command volumes body w
  = (r, {| globals := closed (globals w2);
           trace := trace w2 ++ kill_events (globals w2) |}).
Proof.
  intros Hc vols name Hrun Hbody Hkill. subst vols name.
  unfold new, try_finally. step_monad. rewrite Hc. step_monad.
  rewrite Hrun. step_monad. rewrite Hbody.
  rewrite (new_finally_closed w2 Hkill).
  now destruct r.
Qed.

(** X11: whatever happens inside the build context, [new] cleans up on
    the way out.  When the container started and stopping it works or
    fails with an [APIError], [new] ends as its body ended (with the
    body's result or the body's exception), having sent the stop request
    for the container still set; afterwards no container is set, the
    working directory, command, entrypoint and user are unset and no port
    is declared, while the buildtime volumes and the declared volumes are
    as the body left them. *)
Theorem new_cleans_up_after_body
        {A} (image : string) (command : list string)
        (volumes : option (gmap string Bind)) (body : M A)
        (w w2 : World) (c : Container) (r : result A) :
  container (globals w) = None ->
  let vols :=
    merge_dictionary (buildtime_volumes (globals w)) (default ∅ volumes) in
  let name := "dib-temp-" +:+ String.substring 0 8 uuid4 in
  containers_run image command name vols = Ok c ->
  body {| globals := set_container (Some c) (globals w);
          trace := trace w ++ [CallRun image command name vols] |}
  = (r, w2) ->
  match container (globals w2) with
  | Some c' => kill_swallowed (container_kill c') = true
  | None => True
  end ->
  let out := new image command volumes body w in
  out.1 = r
  /\ trace out.2 = trace w2 ++ kill_events (globals w2)
  /\ container (globals out.2) = None
  /\ (_workdir (globals out.2), _cmd (globals out.2),
      _entrypoint (globals out.2), _user (globals out.2),
      _expose (globals out.2)) = (None, None, None, None, [])
  /\ buildtime_volumes (globals out.2) = buildtime_volumes (globals w2)
  /\ _volumes (globals out.2) = _volumes (globals w2).
Proof.
  intros Hc vols name Hrun Hbody Hkill out. subst out.
  rewrite (new_around_body image command volumes body w w2 c r
             Hc Hrun Hbody Hkill).
  repeat split.
Qed.

(** X12: when the daemon fails to start the container, [new] raises that
    failure without running its body and without a stop request; the
    cleanup still resets the declared scalars and ports. *)
Theorem new_when_container_does_not_start
        {A} (image : string) (command : list string)
        (volumes : option (gmap string Bind)) (body : M A)
        (w : World) (e : exn) :
  container (globals w) = None ->
  let vols :=
    merge_dictionary (buildtime_volumes (globals w)) (default ∅ volumes) in
  let name := "dib-temp-" +:+ String.substring 0 8 uuid4 in
  containers_run image command name vols = Raise e ->
  new image command volumes body w
  = (Raise e, {| globals := closed (globals w);
                 trace := trace w ++ [CallRun image command name vols] |}).
Proof.
  intros Hc vols name Hrun. subst vols name.
  unfold new, try_finally. step_monad. rewrite Hc. step_monad.
  rewrite Hrun. step_monad.
  rewrite new_finally_closed by (simpl; now rewrite Hc).
  unfold kill_events. simpl. rewrite Hc. simpl.
  now rewrite app_nil_r.
Qed.

(** X13: when stopping the container fails with anything but an
    [APIError], that exception replaces the outcome of the body and the
    rest of the cleanup is skipped: the container handle stays set and
    nothing is reset, so the next [new] is refused as nested. *)
Theorem new_when_kill_fails
        {A B} (image : string) (command : list string)
        (volumes : option (gmap string Bind)) (body : M A)
        (w w2 : World) (c c' : Container) (r : result A) (e : exn)
        (image' : string) (command' : list string)
        (volumes' : option (gmap string Bind)) (body' : M B) :
  container (globals w) = None ->
  let vols :=
    merge_dictionary (buildtime_volumes (globals w)) (default ∅ volumes) in
  let name := "dib-temp-" +:+ String.substring 0 8 uuid4 in
  containers_run image command name vols = Ok c ->
  body {| globals := set_container (Some c) (globals w);
          trace := trace w ++ [CallRun image command name vols] |}
  = (r, w2) ->
  container (globals w2) = Some c' ->
  container_kill c' = Raise e ->
  kill_swallowed (Raise e) = false ->
  let w3 := {| globals := globals w2; trace := trace w2 ++ [CallKill c'] |} in
  new image command volumes body w = (Raise e, w3)
  /\ new image' command' volumes' body' w3
     = (Raise (RuntimeError "new() can not be nested"), w3).
Proof.
  intros Hc vols name Hrun Hbody Hc2 Hkill He w3. subst vols name w3.
  split.
  - unfold new, try_finally. step_monad. rewrite Hc. step_monad.
    rewrite Hrun. step_monad. rewrite Hbody.
    unfold new_finally, except_APIError. step_monad.
    rewrite Hc2. step_monad. rewrite Hkill.
    destruct e; try discriminate; now destruct r.
  - unfold new. step_monad. now rewrite Hc2.
Qed.

End SessionMore.

(** X10 at a concrete script: [workdir('/app')], [expose('80')],
    [workdir('/srv')] in a fresh session. *)
Lemma metadata_calls_only_print_witness :
  let docker := Sample.docker [] (Some 0%Z) in
  let host := Sample.host "/build" ∅ in
  let c := {| api.container_id := "dib-temp-0f8fad5b" |} in
  Script.steps [ Script.SetWorkdir "/app"; Script.AddExpose "80";
                 Script.SetWorkdir "/srv" ] (Sample.opened c)
  = (api.Ok tt,
     {| api.globals :=
          api.set_expose ["80"]
            (api.set_workdir (Some "/srv")
               (api.set_container (Some c) api.initial));
        api.trace := [ api.StdoutLine "WORKDIR /app";
                       api.StdoutLine "WORKDIR /srv" ] |}).
Proof.
  intros docker host c.
  destruct (metadata_calls_only_print
              [ Script.SetWorkdir "/app"; Script.AddExpose "80";
                Script.SetWorkdir "/srv" ] (Sample.opened c) c eq_refl)
    as (Hsteps & _).
  exact Hsteps.
Defined.

(** X11 at a concrete session: [workdir('/app')], [volume('/data')] and
    then a failing [run('false')] inside [new('alpine')]. *)
Lemma new_cleans_up_after_body_witness :
  let docker := Sample.docker [] (Some 1%Z) in
  let host := Sample.host "/build" ∅ in
  let c := {| api.container_id := "dib-temp-0f8fad5b" |} in
  let body :=
    api.workdir "/app";; api.volume "/data";;
    api.run (api.Shell "false") None dockertools.default_kwargs in
  let out := api.new "alpine" api.default_command None body Sample.start in
  out.1 = api.Raise (api.SystemExit 1)
  /\ api.trace out.2
     = [ api.CallRun "alpine" api.default_command "dib-temp-0f8fad5b" ∅;
         api.StdoutLine "WORKDIR /app";
         api.StdoutLine "RUN false"; api.StdoutLine EmptyString;
         api.CallExec c ["bash"; "-c"; "false"]
                      dockertools.default_kwargs (Some "/app");
         api.StdoutLine EmptyString;
         api.StderrLine "ERROR exit code 1" ]
       ++ [api.CallKill c]
  /\ api.container (api.globals out.2) = None
  /\ (api._workdir (api.globals out.2), api._cmd (api.globals out.2),
      api._entrypoint (api.globals out.2), api._user (api.globals out.2),
      api._expose (api.globals out.2)) = (None, None, None, None, [])
  /\ api.buildtime_volumes (api.globals out.2) = ∅
  /\ api._volumes (api.globals out.2) = ["/data"].
Proof.
  intros docker host c body.
  set (opened := {| api.globals := api.set_container (Some c) api.initial;
                    api.trace :=
                      [ api.CallRun "alpine" api.default_command
                                    "dib-temp-0f8fad5b" ∅ ] |}).
  apply (new_cleans_up_after_body "alpine" api.default_command None body
           Sample.start (body opened).2 c (body opened).1);
    reflexivity.
Defined.

(** X12 at a concrete call: [new('nosuchimage')] against a daemon without
    that image, after a stray working directory was left declared. *)
Lemma new_when_container_does_not_start_witness :
  let docker := Faulty.no_image in
  let host := Sample.host "/build" ∅ in
  let w := {| api.globals := api.set_workdir (Some "/old") api.initial;
              api.trace := [] |} in
  api.new "nosuchimage" api.default_command None (api.workdir "/app") w
  = (api.Raise (api.APIError "404 image not found"),
     {| api.globals := api.initial;
        api.trace :=
          [ api.CallRun "nosuchimage" api.default_command
                        "dib-temp-0f8fad5b" ∅ ] |}).
Proof.
  intros docker host w.
  rewrite (new_when_container_does_not_start "nosuchimage"
             api.default_command None (api.workdir "/app") w
             (api.APIError "404 image not found"));
    reflexivity.
Defined.

(** X13 at a concrete session: the daemon is out of reach when the
    context is left. *)
Lemma new_when_kill_fails_witness :
  let docker := Faulty.unreachable in
  let host := Sample.host "/build" ∅ in
  let c := {| api.container_id := "dib-temp-0f8fad5b" |} in
  let w3 :=
    {| api.globals :=
         api.set_workdir (Some "/app")
           (api.set_container (Some c) api.initial);
       api.trace :=
         [ api.CallRun "alpine" api.default_command "dib-temp-0f8fad5b" ∅;
           api.StdoutLine "WORKDIR /app";
           api.CallKill c ] |} in
  api.new "alpine" api.default_command None (api.workdir "/app") Sample.start
  = (api.Raise (api.OtherError "ConnectionError"), w3)
  /\ api.new "alpine" api.default_command None (api.workdir "/srv") w3
     = (api.Raise (api.RuntimeError "new() can not be nested"), w3).
Proof.
  intros docker host c w3.
  set (opened := {| api.globals := api.set_container (Some c) api.initial;
                    api.trace :=
                      [ api.CallRun "alpine" api.default_command
                                    "dib-temp-0f8fad5b" ∅ ] |}).
  apply (new_when_kill_fails "alpine" api.default_command None
           (api.workdir "/app") Sample.start
           (api.workdir "/app" opened).2 c c
           (api.workdir "/app" opened).1
           (api.OtherError "ConnectionError")
           "alpine" api.default_command None (api.workdir "/srv"));
    reflexivity.
Defined.

(** ** [commit], beyond the repository string *)

Section CommitMore.
Import api.
Context `{Docker} `{Host}.

(** Where the separator occurs, the split is around its first
    occurrence. *)
Lemma partition_present (s : string) (sep : ascii) :
  PyStr.contains (chr sep) s = true ->
  exists before after,
    PyStr.partition s sep = (before, chr sep, after)
    /\ s = before +:+ String sep after
    /\ PyStr.contains (chr sep) before = false.
Proof.
  induction s as [|x s IH]; [discriminate|].
  intros Hin. simpl. destruct (Ascii.eqb x sep) eqn:E.
  - apply Ascii.eqb_eq in E. subst x.
    exists EmptyString, s. repeat split; reflexivity.
  - cbn [PyStr.contains] in Hin. apply orb_true_iff in Hin as [Hhead|Htail].
    + simpl in Hhead. destruct (ascii_dec sep x) as [->|]; [|discriminate].
      rewrite Ascii.eqb_refl in E. discriminate.
    + destruct (IH Htail) as (before & after & -> & -> & Hno).
      exists (String x before), after. repeat split.
      cbn [PyStr.contains]. rewrite Hno, orb_false_r.
      simpl. destruct (ascii_dec sep x) as [->|]; [|reflexivity].
      rewrite Ascii.eqb_refl in E. discriminate.
Qed.

(** The [tag] argument can make the check fail and nothing else. *)
Lemma commit_target_ignores_tag
      (repository tag : option string) (p : option string * option string) :
  commit_target repository tag = Ok p -> commit_target repository None = Ok p.
Proof.
  unfold commit_target.
  destruct repository as [r|]; [|tauto].
  destruct (PyStr.truthy r); [|tauto].
  destruct (PyStr.partition r ":") as [[name found] implicit].
  destruct (PyStr.truthy implicit && negb (PyStr.truthy name)); [tauto|].
  destruct (PyStr.truthy_opt tag && PyStr.truthy implicit); [discriminate|].
  simpl. tauto.
Qed.

(** X14: the [tag] argument of [commit] is never used.  Whenever [commit]
    with a [tag] argument succeeds, it has done exactly what [commit]
    without the argument does: the same call to the daemon, the same
    image. *)
Theorem commit_never_uses_tag_argument
        (repository tag author message : option string)
        (conf : option (gmap string string)) (w w' : World) (img : Image) :
  commit repository tag author message conf w = (Ok img, w') ->
  commit repository None author message conf w = (Ok img, w').
Proof.
  unfold commit. step_monad.
  destruct (container (globals w)) as [c|]; [|discriminate].
  step_monad.
  destruct (commit_target repository tag) as [p|e] eqn:Et; [|discriminate].
  rewrite (commit_target_ignores_tag repository tag p Et). tauto.
Qed.

(** X15: when [commit] accepts a repository string with a colon, the
    repository and the tag it hands to the daemon, put together again
    around a colon, are the string given, and the repository part has no
    colon. *)
Theorem commit_cuts_repository_string
        (r : string) (tag author message : option string)
        (conf : option (gmap string string)) (w w' : World) (img : Image) :
  PyStr.contains ":" r = true ->
  commit (Some r) tag author message conf w = (Ok img, w') ->
  exists c args name embedded,
    container (globals w) = Some c
    /\ w' = {| globals := globals w; trace := trace w ++ [CallCommit c args] |}
    /\ arg_repository args = Some name
    /\ arg_tag args = Some embedded
    /\ name +:+ ":" +:+ embedded = r
    /\ PyStr.contains ":" name = false.
Proof.
  intros Hcolon. unfold commit. step_monad.
  destruct (container (globals w)) as [c|] eqn:Hc; [|discriminate].
  step_monad.
  destruct (partition_present r ":" Hcolon) as (name & embedded & Hp & Hr & Hno).
  assert (Hne : PyStr.truthy r = true) by (subst r; now destruct name).
  unfold commit_target. rewrite Hne, Hp.
  destruct (PyStr.truthy embedded && negb (PyStr.truthy name));
    [discriminate|].
  destruct (PyStr.truthy_opt tag && PyStr.truthy embedded); [discriminate|].
  step_monad. intros [= <- <-].
  eexists c, _, name, embedded.
  split; [reflexivity|]. split; [reflexivity|].
  split; [reflexivity|]. split; [reflexivity|].
  split; [now rewrite Hr | exact Hno].
Qed.

(** X16: the two refusals of [commit] come before any call to the daemon
    and change nothing.  Outside a session [commit] raises its
    [RuntimeError]; inside one, when the repository and tag do not pass
    the check, it raises the [ValueError] of the check, one of two.  When
    they pass, [commit] asks the daemon once, with the changes built from
    the current variables, and when that call returns it returns the
    image with the module variables as before: the session stays open. *)
Theorem commit_checks_then_calls
        (repository tag author message : option string)
        (conf : option (gmap string string)) (w : World) :
  match container (globals w), commit_target repository tag with
  | None, _ =>
      commit repository tag author message conf w
      = (Raise (RuntimeError
                  "commit() can not be used outside of a build context"), w)
  | Some c, Raise e =>
      commit repository tag author message conf w = (Raise e, w)
      /\ (e = ValueError "tag without repository"
          \/ e = ValueError "tag in repository and tag argument")
  | Some c, Ok (r, t) =>
      let args :=
        {| arg_repository := r; arg_tag := t; arg_message := message;
           arg_author := author; arg_changes := commit_changes (globals w);
           arg_conf := conf |} in
      commit repository tag author message conf w
      = (Ok (container_commit c args),
         {| globals := globals w; trace := trace w ++ [CallCommit c args] |})
  end.
Proof.
  unfold commit. step_monad.
  destruct (container (globals w)) as [c|]; step_monad; [|reflexivity].
  destruct (commit_target repository tag) as [[r t]|e] eqn:Et;
    step_monad; [reflexivity|].
  split; [reflexivity|].
  unfold commit_target in Et.
  destruct repository as [repo|]; [|discriminate].
  destruct (PyStr.truthy repo); [|discriminate].
  destruct (PyStr.partition repo ":") as [[name found] implicit].
  destruct (PyStr.truthy implicit && negb (PyStr.truthy name)).
  { injection Et as <-. now left. }
  destruct (PyStr.truthy_opt tag && PyStr.truthy implicit); [|discriminate].
  injection Et as <-. now right.
Qed.

End CommitMore.

(** X14 at a concrete call: [commit('myimage', tag='v2')] succeeds, and
    so it is [commit('myimage')]. *)
Lemma commit_never_uses_tag_argument_witness :
  let docker := Sample.docker [] (Some 0%Z) in
  let host := Sample.host "/build" ∅ in
  let c := {| api.container_id := "dib-temp-0f8fad5b" |} in
  let args :=
    {| api.arg_repository := Some "myimage";
       api.arg_tag := Some EmptyString;
       api.arg_message := None; api.arg_author := None;
       api.arg_changes := []; api.arg_conf := None |} in
  let w' := {| api.globals := api.globals (Sample.opened c);
               api.trace := [api.CallCommit c args] |} in
  api.commit (Some "myimage") (Some "v2") None None None (Sample.opened c)
  = (api.Ok (api.container_commit c args), w')
  /\ api.commit (Some "myimage") None None None None (Sample.opened c)
     = (api.Ok (api.container_commit c args), w').
Proof.
  intros docker host c args w'.
  split; [reflexivity|].
  apply (commit_never_uses_tag_argument (Some "myimage") (Some "v2")
           None None None (Sample.opened c) w'
           (api.container_commit c args)).
  reflexivity.
Defined.

(** X15 at a concrete call: [commit('localhost:5000/app:v1')]. *)
Lemma commit_cuts_repository_string_witness :
  let docker := Sample.docker [] (Some 0%Z) in
  let host := Sample.host "/build" ∅ in
  let c := {| api.container_id := "dib-temp-0f8fad5b" |} in
  let out :=
    api.commit (Some "localhost:5000/app:v1") None None None None
               (Sample.opened c) in
  exists c' args name embedded,
    api.container (api.globals (Sample.opened c)) = Some c'
    /\ out.2 = {| api.globals := api.globals (Sample.opened c);
                  api.trace := [api.CallCommit c' args] |}
    /\ api.arg_repository args = Some name
    /\ api.arg_tag args = Some embedded
    /\ name +:+ ":" +:+ embedded = "localhost:5000/app:v1"
    /\ PyStr.contains ":" name = false.
Proof.
  intros docker host c out.
  apply (commit_cuts_repository_string "localhost:5000/app:v1" None None None
           None (Sample.opened c) out.2
           {| api.image_id := "dib-temp-0f8fad5b-image" |});
    reflexivity.
Defined.

(** ** Buildtime volumes, call after call *)

Section VolumesMore.
Import api CopySpec.
Context `{Docker} `{Host}.

(** X17: inside a session [buildtime_volume] raises a [RuntimeError] and
    leaves the buildtime volumes, and everything else, as they were. *)
Theorem buildtime_volume_refused_in_session
        (host_path container_path mode : string) (w : World) (c : Container) :
  container (globals w) = Some c ->
  buildtime_volume host_path container_path mode w
  = (Raise (RuntimeError
       "buildtime_volume() can not be used from inside a build context"),
     w).
Proof.
  intros Hc. unfold buildtime_volume. step_monad. now rewrite Hc.
Qed.

(** X18: declaring a buildtime volume twice for the same host path keeps
    the second declaration only: the two calls leave the state the second
    call alone leaves. *)
Theorem buildtime_volume_last_wins
        (host_path path1 mode1 path2 mode2 : string) (w : World) :
  container (globals w) = None ->
  (buildtime_volume host_path path1 mode1;;
   buildtime_volume host_path path2 mode2) w
  = buildtime_volume host_path path2 mode2 w.
Proof.
  intros Hc. unfold buildtime_volume. step_monad. rewrite Hc. step_monad.
  rewrite Hc. step_monad. now rewrite insert_insert_eq.
Qed.

(** X19: outside a session [buildtime_volume] always succeeds, and it adds
    or replaces one entry: the descriptor is found under the key (the host
    path itself or its absolute form), and every other host path keeps the
    entry it had, or none. *)
Theorem buildtime_volume_one_entry
        (host_path container_path mode : string) (w : World) :
  container (globals w) = None ->
  exists key volumes,
    buildtime_volume host_path container_path mode w
    = (Ok tt, {| globals := set_buildtime_volumes volumes (globals w);
                 trace := trace w |})
    /\ (key = host_path \/ key = path_abs host_path)
    /\ volumes !! key = Some {| bind := container_path; mode := mode |}
    /\ forall other, other <> key ->
         volumes !! other = buildtime_volumes (globals w) !! other.
Proof.
  intros Hc. unfold buildtime_volume. step_monad. rewrite Hc. step_monad.
  match goal with
  | |- context [<[?k := _]> _] => set (key := k)
  end.
  exists key, (<[key := {| bind := container_path; mode := mode |}]>
                 (buildtime_volumes (globals w))).
  split; [reflexivity|]. split; [|split].
  - subst key. destruct (negb _ && _); auto.
  - apply lookup_insert_eq.
  - intros other Hother. now apply lookup_insert_ne.
Qed.

(** X20: [copy] has no session check of its own.  Outside a session, with
    line-ending normalisation asked for on a regular file, it reads the
    file and then fails with the [AttributeError] of calling
    [put_archive] on [None]; nothing is uploaded. *)
Theorem copy_outside_session
        (src dst chmod : string) (w : World) :
  container (globals w) = None ->
  path_isfile src = true ->
  copy src dst true chmod w
  = (Raise (AttributeError
       "'NoneType' object has no attribute 'put_archive'"),
     {| globals := globals w;
        trace := trace w ++ announce (globals w) dst |}).
Proof.
  intros Hc Hfile. destruct w as [g tr]. simpl in *.
  unfold copy. rewrite Hfile. unfold announce. unfold target.
  step_monad. rewrite Hc.
  destruct (_workdir g) as [[|ch wd]|]; step_monad;
    rewrite ?app_nil_r; repeat (rewrite <- app_assoc; simpl); reflexivity.
Qed.

End VolumesMore.

(** X17 at a concrete call: [buildtime_volume('./cache', '/cache')] in a
    fresh session. *)
Lemma buildtime_volume_refused_in_session_witness :
  let docker := Sample.docker [] (Some 0%Z) in
  let host := Sample.host "/build" ∅ in
  let c := {| api.container_id := "dib-temp-0f8fad5b" |} in
  api.buildtime_volume "./cache" "/cache" "rw" (Sample.opened c)
  = (api.Raise (api.RuntimeError
       "buildtime_volume() can not be used from inside a build context"),
     Sample.opened c).
Proof.
  intros docker host c.
  apply (buildtime_volume_refused_in_session "./cache" "/cache" "rw"
           (Sample.opened c) c).
  reflexivity.
Defined.

(** X18 at concrete calls: [./cache] mounted read-write at [/cache], then
    read-only at [/mnt]. *)
Lemma buildtime_volume_last_wins_witness :
  let docker := Sample.docker [] (Some 0%Z) in
  let host := Sample.host "/build" ∅ in
  (api.buildtime_volume "./cache" "/cache" "rw";;
   api.buildtime_volume "./cache" "/mnt" "ro") Sample.start
  = api.buildtime_volume "./cache" "/mnt" "ro" Sample.start.
Proof.
  intros docker host.
  apply (buildtime_volume_last_wins "./cache" "/cache" "rw" "/mnt" "ro"
           Sample.start).
  reflexivity.
Defined.

(** X19 at a concrete call: [buildtime_volume('./cache', '/cache')] right
    after import. *)
Lemma buildtime_volume_one_entry_witness :
  let docker := Sample.docker [] (Some 0%Z) in
  let host := Sample.host "/build" ∅ in
  exists key volumes,
    api.buildtime_volume "./cache" "/cache" "rw" Sample.start
    = (api.Ok tt,
       {| api.globals := api.set_buildtime_volumes volumes api.initial;
          api.trace := [] |})
    /\ (key = "./cache" \/ key = "/build/./cache")
    /\ volumes !! key = Some {| api.bind := "/cache"; api.mode := "rw" |}
    /\ forall other, other <> key -> volumes !! other = (∅ : gmap string api.Bind) !! other.
Proof.
  intros docker host.
  destruct (buildtime_volume_one_entry "./cache" "/cache" "rw" Sample.start)
    as (key & volumes & Hcall & Hkey & Hfound & Hothers); [reflexivity|].
  exists key, volumes.
  split; [exact Hcall|]. split; [exact Hkey|].
  split; [exact Hfound | exact Hothers].
Defined.

(** X20 at a concrete call: [copy('notes.txt', '/app', crlf_to_lf=True)]
    right after import. *)
Lemma copy_outside_session_witness :
  let docker := Sample.docker [] (Some 0%Z) in
  let host := Sample.host "/build" {[ "notes.txt" := b "a" ++ [CR; LF] ]} in
  api.copy "notes.txt" "/app" true EmptyString Sample.start
  = (api.Raise (api.AttributeError
       "'NoneType' object has no attribute 'put_archive'"),
     Sample.start).
Proof.
  intros docker host.
  rewrite (copy_outside_session "notes.txt" "/app" EmptyString Sample.start);
    reflexivity.
Defined.

(** ** A whole build *)

Section Build.
Import api Script SessionSpec.
Context `{Docker} `{Host}.

Lemma commit_in_session
      (repository tag author message : option string)
      (conf : option (gmap string string)) (w : World) (c : Container)
      (r t : option string) :
  container (globals w) = Some c ->
  commit_target repository tag = Ok (r, t) ->
  let args :=
    {| arg_repository := r; arg_tag := t; arg_message := message;
       arg_author := author; arg_changes := commit_changes (globals w);
       arg_conf := conf |} in
  commit repository tag author message conf w
  = (Ok (container_commit c args),
     {| globals := globals w; trace := trace w ++ [CallCommit c args] |}).
Proof.
  intros Hc Ht args. subst args.
  unfold commit. step_monad. rewrite Hc, Ht. reflexivity.
Qed.

(** X21: a whole build, [new] around a script of metadata calls and a
    final [commit] whose repository and tag pass the check, when the
    container starts and stopping it works or fails with an [APIError]:
    the daemon is asked, in this order, to run the container, to commit it
    with the changes of the variables the script left, and to stop it;
    the build returns the image of that commit; afterwards no container is
    set, and the buildtime volumes are the ones declared before. *)
Theorem build_runs_commits_stops
        (image : string) (command : list string)
        (volumes : option (gmap string Bind)) (ms : list mutation)
        (repository tag author message : option string)
        (conf : option (gmap string string))
        (w : World) (c : Container) (r t : option string) :
  container (globals w) = None ->
  let vols :=
    merge_dictionary (buildtime_volumes (globals w)) (default ∅ volumes) in
  let name := "dib-temp-" +:+ String.substring 0 8 uuid4 in
  containers_run image command name vols = Ok c ->
  kill_swallowed (container_kill c) = true ->
  commit_target repository tag = Ok (r, t) ->
  let declared := after ms (set_container (Some c) (globals w)) in
  let args :=
    {| arg_repository := r; arg_tag := t; arg_message := message;
       arg_author := author; arg_changes := commit_changes declared;
       arg_conf := conf |} in
  new image command volumes
      (steps ms;; commit repository tag author message conf) w
  = (Ok (container_commit c args),
     {| globals := closed declared;
        trace := trace w ++ [CallRun image command name vols]
                 ++ workdir_lines ms
                 ++ [CallCommit c args; CallKill c] |})
  /\ container (closed declared) = None
  /\ buildtime_volumes (closed declared) = buildtime_volumes (globals w).
Proof.
  intros Hc vols name Hrun Hkill Ht declared args.
  split; [|split; reflexivity].
  set (opened := {| globals := set_container (Some c) (globals w);
                    trace := trace w ++ [CallRun image command name vols] |}).
  assert (Hopen : container (globals opened) = Some c) by reflexivity.
  pose proof (steps_exact ms opened c Hopen) as Hsteps.
  set (w1 := {| globals := after ms (globals opened);
                trace := trace opened ++ workdir_lines ms |}) in Hsteps.
  assert (Hbody : (steps ms;; commit repository tag author message conf) opened
                  = (Ok (container_commit c args),
                     {| globals := globals w1;
                        trace := trace w1 ++ [CallCommit c args] |})).
  { unfold mbind, M_bind at 1. rewrite Hsteps.
    apply (commit_in_session repository tag author message conf w1 c r t);
      [exact Hopen | exact Ht]. }
  rewrite (new_around_body image command volumes _ w _ c _
             Hc Hrun Hbody).
  2:{ simpl. exact Hkill. }
  unfold kill_events. simpl.
  repeat (rewrite <- app_assoc; simpl). reflexivity.
Qed.

End Build.

(** X21 at a concrete build: [new('alpine')] around [workdir('/app')],
    [expose('80')] and [commit('myimage:v1')]. *)
Lemma build_runs_commits_stops_witness :
  let docker := Sample.docker [] (Some 0%Z) in
  let host := Sample.host "/build" ∅ in
  let c := {| api.container_id := "dib-temp-0f8fad5b" |} in
  let args :=
    {| api.arg_repository := Some "myimage"; api.arg_tag := Some "v1";
       api.arg_message := None; api.arg_author := None;
       api.arg_changes :=
         [ "WORKDIR " +:+ chr dquote +:+ "/app" +:+ chr dquote;
           "EXPOSE 80" ];
       api.arg_conf := None |} in
  api.new "alpine" api.default_command None
    (Script.steps [Script.SetWorkdir "/app"; Script.AddExpose "80"];;
     api.commit (Some "myimage:v1") None None None None) Sample.start
  = (api.Ok (api.container_commit c args),
     {| api.globals := api.initial;
        api.trace :=
          [ api.CallRun "alpine" api.default_command "dib-temp-0f8fad5b" ∅;
            api.StdoutLine "WORKDIR /app";
            api.CallCommit c args;
            api.CallKill c ] |}).
Proof.
  intros docker host c args.
  destruct (build_runs_commits_stops "alpine" api.default_command None
              [Script.SetWorkdir "/app"; Script.AddExpose "80"]
              (Some "myimage:v1") None None None None Sample.start c
              (Some "myimage") (Some "v1"))
    as (Hbuild & _); [reflexivity..|].
  exact Hbuild.
Defined.

(** ** Copying after a working directory was declared *)

Section CopyMore.
Import api.
Context `{Docker} `{Host}.

(** X22: after [workdir(path)] with a non-empty [path], [copy] with
    line-ending normalisation of a regular file uploads to [dst] joined to
    [path] and normalised, and says so on standard output before the
    upload; the upload is one member named after the last component of the
    source; when the daemon refuses the archive, [copy] raises
    [RuntimeError('put_archive() failed')]. *)
Theorem copy_after_workdir
        (path src dst chmod : string) (w : World) (c : Container) :
  container (globals w) = Some c ->
  PyStr.truthy path = true ->
  path_isfile src = true ->
  let target := posixpath_normpath (posixpath_join path dst) in
  let content := PyBytes.replace (read_binary src) [CR; LF] [LF] in
  let member :=
    {| tar_name := path_base src;
       tar_mode := path_chmod_update (os_stat_st_mode src) chmod;
       tar_size := length content;
       tar_content := content |} in
  (workdir path;; copy src dst true chmod) w
  = (if container_put_archive c target [member] then Ok tt
     else Raise (RuntimeError "put_archive() failed"),
     {| globals := set_workdir (Some path) (globals w);
        trace := trace w
                 ++ [ StdoutLine ("WORKDIR " +:+ shlex.quote path);
                      StdoutLine EmptyString;
                      StdoutLine ("@@@ " +:+ target);
                      StdoutLine EmptyString;
                      CallPutArchive c target [member] ] |}).
Proof.
  intros Hc Hpath Hfile target content member. subst target content member.
  destruct w as [g tr]. simpl in Hc.
  unfold workdir, copy. rewrite Hfile. step_monad. rewrite Hc. step_monad.
  rewrite Hpath, Hc. step_monad.
  destruct (container_put_archive c _ _); step_monad;
    repeat (rewrite <- app_assoc; simpl); reflexivity.
Qed.

End CopyMore.

(** X22 at a concrete call: [workdir('/app')] then
    [copy('conf/run.sh', 'bin', crlf_to_lf=True)]. *)
Lemma copy_after_workdir_witness :
  let docker := Sample.docker [] (Some 0%Z) in
  let host :=
    Sample.host "/build"
      {[ "conf/run.sh" := b "#!/bin/sh" ++ [CR; LF] ++ b "exit" ++ [CR; LF] ]} in
  let c := {| api.container_id := "dib-temp-0f8fad5b" |} in
  let member :=
    {| api.tar_name := "run.sh"; api.tar_mode := 33188%Z;
       api.tar_size := 15;
       api.tar_content := b "#!/bin/sh" ++ [LF] ++ b "exit" ++ [LF] |} in
  (api.workdir "/app";; api.copy "conf/run.sh" "bin" true EmptyString)
    (Sample.opened c)
  = (api.Ok tt,
     {| api.globals :=
          api.set_workdir (Some "/app") (api.globals (Sample.opened c));
        api.trace :=
          [ api.StdoutLine "WORKDIR /app";
            api.StdoutLine EmptyString;
            api.StdoutLine "@@@ /app/bin";
            api.StdoutLine EmptyString;
            api.CallPutArchive c "/app/bin" [member] ] |}).
Proof.
  intros docker host c member.
  rewrite (copy_after_workdir "/app" "conf/run.sh" "bin" EmptyString
             (Sample.opened c) c); reflexivity.
Defined.

(** ** Files that need no normalisation *)

Section CopyUnchanged.
Import api CrlfSpec CopySpec.
Context `{Docker} `{Host}.

Lemma drop_cr_without_crlf (data : bytes) :
  has_crlf data = false -> drop_cr_before_lf data = data.
Proof.
  induction data as [|x rest IH]; [reflexivity|].
  destruct rest as [|y rest']; [reflexivity|].
  change (has_crlf (x :: y :: rest'))
    with ((Byte.eqb x CR && Byte.eqb y LF) || has_crlf (y :: rest')).
  intros Hno. apply orb_false_iff in Hno as [Hhead Hrest].
  change (drop_cr_before_lf (x :: y :: rest'))
    with (if Byte.eqb x CR && Byte.eqb y LF
          then drop_cr_before_lf (y :: rest')
          else x :: drop_cr_before_lf (y :: rest')).
  now rewrite Hhead, IH.
Qed.

(** X23: a regular file in which no CRLF pair occurs is uploaded byte for
    byte by [copy] with line-ending normalisation: one member with the
    content and the length of the file. *)
Theorem copy_keeps_lf_only_file
        (src dst chmod : string) (w : World) (c : Container) :
  container (globals w) = Some c ->
  path_isfile src = true ->
  has_crlf (read_binary src) = false ->
  let member :=
    {| tar_name := path_base src;
       tar_mode := path_chmod_update (os_stat_st_mode src) chmod;
       tar_size := length (read_binary src);
       tar_content := read_binary src |} in
  let dst' := target (globals w) dst in
  copy src dst true chmod w
  = (if container_put_archive c dst' [member] then Ok tt
     else Raise (RuntimeError "put_archive() failed"),
     {| globals := globals w;
        trace := trace w ++ announce (globals w) dst
                 ++ [CallPutArchive c dst' [member]] |}).
Proof.
  intros Hc Hfile Hlf member dst'. subst member dst'.
  destruct w as [g tr]. simpl in Hc. simpl globals. simpl trace.
  unfold copy. rewrite replace_crlf, (drop_cr_without_crlf _ Hlf), Hfile.
  unfold announce. unfold target.
  step_monad. rewrite Hc.
  destruct (_workdir g) as [[|ch wd]|]; step_monad;
    rewrite ?app_nil_r;
    destruct (container_put_archive c _ _); step_monad;
    repeat (rewrite <- app_assoc; simpl); reflexivity.
Qed.

End CopyUnchanged.

(** X23 at a concrete call: a file with LF endings and a lone CR. *)
Lemma copy_keeps_lf_only_file_witness :
  let content := b "one" ++ [LF] ++ b "tw" ++ [CR] ++ b "o" ++ [LF] in
  let docker := Sample.docker [] (Some 0%Z) in
  let host := Sample.host "/build" {[ "notes.txt" := content ]} in
  let c := {| api.container_id := "dib-temp-0f8fad5b" |} in
  let member :=
    {| api.tar_name := "notes.txt"; api.tar_mode := 33188%Z;
       api.tar_size := 9; api.tar_content := content |} in
  api.copy "notes.txt" "/app" true EmptyString (Sample.opened c)
  = (api.Ok tt,
     {| api.globals := api.globals (Sample.opened c);
        api.trace := [api.CallPutArchive c "/app" [member]] |}).
Proof.
  intros content docker host c member.
  rewrite (copy_keeps_lf_only_file "notes.txt" "/app" EmptyString
             (Sample.opened c) c); reflexivity.
Defined.
